(** * HAP bridge diagnostic scripts: a shallow embedding

    The two scripts [scripts/debug/test-hap-pairing.py] and
    [scripts/debug/test-mdns.py] probe a running HomeKit bridge: they open
    sockets, issue HTTP requests, spawn mDNS browsers, write a log to the error
    stream and end the process with an exit status.

    The embedding is a state-and-exception monad over an explicit record of
    what the outside world answers ([Env]).  The state keeps the observable
    trace of a run (lines written to stderr, function calls, commands the
    script asks to start, sockets opened and closed) and the one local
    variable whose binding state matters to an exception handler ([output]).
    Python exceptions are values of [exn]; [except Exception] catches exactly
    the [Exc] ones, so that [KeyboardInterrupt] and [SystemExit] pass through.

    Layout: Python strings and values; the world, the state and the monad;
    the two scripts ([HapPairing], [MdnsTest]), function by function; concrete
    worlds ([Scenario]); the vocabulary of the statements; then the lemmas
    about effects and the theorems on the verdict, the exit status, the
    probes, the sockets, the order of calls and the focused mDNS script. *)

From Stdlib Require Import String Ascii List ZArith Bool Lia DecimalString.
Import ListNotations.
Local Open Scope string_scope.
Local Open Scope Z_scope.

(** ** Python strings *)

Definition nl : string := String (ascii_of_nat 10) "".
Definition crlf : string := String (ascii_of_nat 13) (String (ascii_of_nat 10) "").

(** [needle in hay] on [str] and [bytes]. *)
Fixpoint contains (needle hay : string) : bool :=
  if String.prefix needle hay then true
  else match hay with
       | EmptyString => false
       | String _ t => contains needle t
       end.

(** [s.split(sep)] for a one-character separator. *)
Fixpoint split_on (sep : ascii) (s : string) : list string :=
  match s with
  | EmptyString => [EmptyString]
  | String c t =>
      if Ascii.eqb c sep then EmptyString :: split_on sep t
      else match split_on sep t with
           | h :: r => String c h :: r
           | [] => [String c EmptyString]
           end
  end.

(** [s * n]. *)
Fixpoint repeat_string (s : string) (n : nat) : string :=
  match n with
  | O => EmptyString
  | S k => s ++ repeat_string s k
  end.

(** [str(z)] for an [int]. *)
Definition str_Z (z : Z) : string := NilZero.string_of_int (Z.to_int z).

(** [len(s)]. *)
Definition len (s : string) : Z := Z.of_nat (String.length s).

(** ** Decoded JSON, as [json.loads] returns it *)

Set Warnings "-register-all".

Inductive json : Type :=
| JNull
| JBool (b : bool)
| JInt (literal : string)       (* a number [json.loads] makes an [int] *)
| JFloat (literal : string)     (* a number [json.loads] makes a [float] *)
| JStr (s : string)
| JArr (items : list json)
| JObj (members : list (string * json)).

(** ** Exceptions *)

(** Subclasses of [Exception] the scripts can meet. *)
Inductive exc_class : Type :=
| TimeoutExpired            (* subprocess.TimeoutExpired *)
| FileNotFoundError
| socket_timeout            (* socket.timeout *)
| HTTPError (code : Z)      (* urllib.error.HTTPError, with e.code *)
| URLError                  (* urllib.error.URLError proper *)
| UnboundLocalError
| TypeError
| OtherException.

(** [KeyboardInterrupt] and [SystemExit] derive from [BaseException] only;
    [Exc c msg] is an instance of [Exception] whose [str] is [msg]. *)
Inductive exn : Type :=
| KeyboardInterrupt
| SystemExit (code : Z)
| Exc (c : exc_class) (msg : string).

Inductive Res (A : Type) : Type :=
| Ret (a : A)
| Raise (e : exn).
Arguments Ret {A} a.
Arguments Raise {A} e.

(** What an external call answers: a value or a fault of class [Exception]. *)
Inductive Out (A : Type) : Type :=
| Ok (a : A)
| Fault (c : exc_class) (msg : string).
Arguments Ok {A} a.
Arguments Fault {A} c msg.

(** ** The outside world *)

(** The object [urlopen] returns. *)
Record http_response : Type := {
  getcode : Z;                  (* response.getcode() *)
  read_decode : Out string      (* response.read().decode() *)
}.

(** Socket and process handles are numbered in order of creation; the answers
    of the operating system are indexed by handle.  [interrupt_at = Some n]
    means the user presses Ctrl-C during the [n]-th blocking call.  The last
    four fields are library functions the model does not unfold: whatever
    [json.loads], [json.dumps], [repr] and [re.search] compute (the search
    with Python's own, Unicode-aware, word class) is an instance. *)
Record Env : Type := {
  sys_platform : string;
  interrupt_at : option nat;
  os_socket : nat -> Out unit;
  os_connect_ex : nat -> Out Z;
  os_send : nat -> Out Z;
  os_recv : nat -> Out string;
  os_popen : nat -> list string -> Out unit;
  os_communicate : nat -> list string -> Out (string * string);
  os_run : nat -> list string -> Out string;
  http_urlopen : string -> Out http_response;
  json_loads : string -> Out json;
  json_dumps : json -> string;      (* json.dumps(data, indent=2) *)
  py_repr : json -> string;         (* the text an f-string gives for data *)
  re_search : string -> string -> option string
                                    (* re.search(pattern, s): match.group(0) *)
}.

(** ** Run state *)

Inductive event : Type :=
| Stderr (line : string)
| Call (fn : string)
| Spawn (cmd : list string)      (* the script asks for [cmd] to be started *)
| SockOpen (h : nat)
| SockClose (h : nat).

Record State : Type := {
  trace : list event;
  next_id : nat;              (* next socket or process handle *)
  clock : nat;                (* blocking calls made so far *)
  output : option string      (* the local variable [output], when bound *)
}.

Definition init : State :=
  {| trace := []; next_id := 0; clock := 0; output := None |}.

Definition emit (e : event) (s : State) : State :=
  {| trace := (trace s ++ [e])%list; next_id := next_id s;
     clock := clock s; output := output s |}.

Definition tick (s : State) : State :=
  {| trace := trace s; next_id := next_id s;
     clock := S (clock s); output := output s |}.

Definition alloc (s : State) : State :=
  {| trace := trace s; next_id := S (next_id s);
     clock := clock s; output := output s |}.

Definition bind_output (o : option string) (s : State) : State :=
  {| trace := trace s; next_id := next_id s; clock := clock s; output := o |}.

(** Projections of a trace. *)
Definition stderr_of (t : list event) : list string :=
  flat_map (fun e => match e with Stderr l => [l] | _ => [] end) t.

Definition calls_of (t : list event) : list string :=
  flat_map (fun e => match e with Call f => [f] | _ => [] end) t.

Definition spawned_of (t : list event) : list (list string) :=
  flat_map (fun e => match e with Spawn c => [c] | _ => [] end) t.

(** Sockets opened and not closed since, oldest first. *)
Fixpoint open_socks_from (acc : list nat) (t : list event) : list nat :=
  match t with
  | [] => acc
  | SockOpen h :: t' => open_socks_from (acc ++ [h])%list t'
  | SockClose h :: t' => open_socks_from (filter (fun k => negb (Nat.eqb k h)) acc) t'
  | _ :: t' => open_socks_from acc t'
  end.

Definition open_socks (t : list event) : list nat := open_socks_from [] t.

(** ** The monad *)

Definition M (A : Type) : Type := State -> Res A * State.

Definition ret {A} (a : A) : M A := fun s => (Ret a, s).

Definition raise {A} (e : exn) : M A := fun s => (Raise e, s).

Definition bind {A B} (m : M A) (k : A -> M B) : M B :=
  fun s => match m s with
           | (Ret a, s') => k a s'
           | (Raise e, s') => (Raise e, s')
           end.

Declare Scope py_scope.
Delimit Scope py_scope with py.
Notation "x <- m ;; k" := (bind m (fun x => k))
  (at level 61, m at next level, right associativity) : py_scope.
Notation "m ;; k" := (bind m (fun _ => k))
  (at level 61, right associativity) : py_scope.
Local Open Scope py_scope.

(** [try: m except ...]: [h e] is the first clause that matches [e], if any.
    An exception raised by the clause itself is not offered to its siblings. *)
Definition try_except {A} (m : M A) (h : exn -> option (M A)) : M A :=
  fun s => match m s with
           | (Ret a, s') => (Ret a, s')
           | (Raise e, s') =>
               match h e with
               | Some k => k s'
               | None => (Raise e, s')
               end
           end.

(** [try: m finally: f]. *)
Definition try_finally {A} (m : M A) (f : M unit) : M A :=
  fun s => match m s with
           | (r, s') =>
               match f s' with
               | (Ret _, s'') => (r, s'')
               | (Raise e, s'') => (Raise e, s'')
               end
           end.

(** [except Exception as e], with [str(e)] handed to the clause. *)
Definition except_Exception {A} (k : string -> M A) (e : exn) : option (M A) :=
  match e with
  | Exc _ msg => Some (k msg)
  | _ => None
  end.

Definition do_emit (e : event) : M unit := fun s => (Ret tt, emit e s).

(** A function call: it is recorded, the body runs in a fresh frame, and the
    caller's frame is back when the body returns or raises. *)
Definition call {A} (fn : string) (body : M A) : M A :=
  fun s => match body (bind_output None (emit (Call fn) s)) with
           | (r, s') => (r, bind_output (output s) s')
           end.

(** [print(line, file=sys.stderr)]. *)
Definition print_stderr (line : string) : M unit := do_emit (Stderr line).

Definition set_output (o : string) : M unit :=
  fun s => (Ret tt, bind_output (Some o) s).

(** Reading the local variable [output]. *)
Definition get_output : M string :=
  fun s => match output s with
           | Some o => (Ret o, s)
           | None =>
               (Raise (Exc UnboundLocalError
                  "cannot access local variable 'output' where it is not associated with a value"), s)
           end.

Definition sys_exit {A} (code : Z) : M A := raise (SystemExit code).

Definition of_out {A} (o : Out A) : M A :=
  fun s => match o with
           | Ok a => (Ret a, s)
           | Fault c msg => (Raise (Exc c msg), s)
           end.

Section World.

Variable env : Env.

Definition interrupted (n : nat) : bool :=
  match interrupt_at env with
  | Some k => Nat.eqb k n
  | None => false
  end.

(** A blocking call: it is where a Ctrl-C lands; otherwise the world answers. *)
Definition extern {A} (o : Out A) : M A :=
  fun s => if interrupted (clock s)
           then (Raise KeyboardInterrupt, tick s)
           else of_out o (tick s).

Definition time_sleep (secs : Z) : M unit := extern (Ok tt).

(** [socket.socket(AF_INET, SOCK_STREAM)]. *)
Definition socket_socket : M nat :=
  fun s => match extern (os_socket env (next_id s)) s with
           | (Ret _, s') => (Ret (next_id s), emit (SockOpen (next_id s)) (alloc s'))
           | (Raise e, s') => (Raise e, s')
           end.

Definition sock_settimeout (sock : nat) (t : Z) : M unit := ret tt.

Definition sock_connect_ex (sock : nat) (addr : string * Z) : M Z :=
  extern (os_connect_ex env sock).

Definition sock_send (sock : nat) (data : string) : M Z :=
  extern (os_send env sock).

Definition sock_recv (sock : nat) (bufsize : Z) : M string :=
  extern (os_recv env sock).

Definition sock_close (sock : nat) : M unit := do_emit (SockClose sock).

(** [subprocess.Popen(cmd, stdout=PIPE, stderr=PIPE, text=True)]; the result
    is the process handle together with its command line. *)
Definition Popen (cmd : list string) : M (nat * list string) :=
  fun s => match extern (os_popen env (next_id s) cmd) (emit (Spawn cmd) s) with
           | (Ret _, s') => (Ret (next_id s, cmd), alloc s')
           | (Raise e, s') => (Raise e, s')
           end.

Definition proc_terminate (proc : nat * list string) : M unit := ret tt.

(** [proc.communicate(timeout=t)]: the pair (stdout, stderr). *)
Definition proc_communicate (proc : nat * list string) (t : Z) : M (string * string) :=
  extern (os_communicate env (fst proc) (snd proc)).

(** [subprocess.run(cmd, capture_output=True, text=True, timeout=t).stdout]. *)
Definition subprocess_run (cmd : list string) (t : Z) : M string :=
  fun s => match extern (os_run env (next_id s) cmd) (emit (Spawn cmd) s) with
           | (r, s') => (r, alloc s')
           end.

(** [urllib.request.urlopen(Request(url), timeout=t)]. *)
Definition urlopen (url : string) (t : Z) : M http_response :=
  extern (http_urlopen env url).

Definition response_read_decode (r : http_response) : M string :=
  extern (read_decode r).

(** [key in data] for a decoded JSON value: key lookup on a dict, element
    equality on a list, substring on a str, [TypeError] on anything else. *)
Definition py_in (key : string) (data : json) : M bool :=
  match data with
  | JObj members => ret (existsb (fun kv => String.eqb key (fst kv)) members)
  | JArr items =>
      ret (existsb (fun x => match x with
                             | JStr s => String.eqb key s
                             | _ => false
                             end) items)
  | JStr s => ret (contains key s)
  | JNull => raise (Exc TypeError "argument of type 'NoneType' is not iterable")
  | JBool _ => raise (Exc TypeError "argument of type 'bool' is not iterable")
  | JInt _ => raise (Exc TypeError "argument of type 'int' is not iterable")
  | JFloat _ => raise (Exc TypeError "argument of type 'float' is not iterable")
  end.

End World.

(** ** [test-hap-pairing.py] *)

Module HapPairing.

(** The module-level configuration. *)
Record Config : Type := {
  HAP_PORT : Z;
  WEB_PORT : Z;
  TIMEOUT : Z;
  MAX_RETRIES : Z
}.

Definition config : Config :=
  {| HAP_PORT := 51826; WEB_PORT := 3000; TIMEOUT := 10; MAX_RETRIES := 3 |}.

(** [log(message, level)]: one line on stderr.  The timestamp prefix is left
    out of the model. *)
Definition log (message level : string) : M unit :=
  print_stderr ("[" ++ level ++ "] " ++ message).

Section Script.

Variable cfg : Config.
Variable env : Env.

Definition test_port_open (host : string) (port : Z) (timeout : Z) : M bool :=
  call "test_port_open"
    (try_except
       (sock <- socket_socket env ;;
        sock_settimeout sock timeout ;;
        result <- sock_connect_ex env sock (host, port) ;;
        sock_close sock ;;
        ret (result =? 0))
       (except_Exception (fun e =>
          log ("Port test failed for " ++ host ++ ":" ++ str_Z port ++ " - " ++ e) "ERROR" ;;
          ret false))).

(** The [for line in output.split(...)] loop of [test_mdns_advertisement]:
    its value is [found_bridge] when the loop ends or breaks. *)
Fixpoint resolve_bridge_lines (lines : list string) : M bool :=
  match lines with
  | [] => ret false
  | line :: rest =>
      if contains "SmartThings Bridge" line then
        match re_search env "SmartThings Bridge \w+" line with
        | Some bridge_name =>
            log ("Found bridge instance: " ++ bridge_name) "INFO" ;;
            proc <- Popen env ["dns-sd"; "-L"; bridge_name; "_hap._tcp"; "local."] ;;
            time_sleep env 2 ;;
            proc_terminate proc ;;
            r <- proc_communicate env proc 1 ;;
            let resolve_output := fst r in
            if contains "can be reached at" resolve_output && contains "51826" resolve_output
            then
              log ("Bridge '" ++ bridge_name ++ "' properly advertised on port 51826") "SUCCESS" ;;
              ret true
            else resolve_bridge_lines rest
        | None => resolve_bridge_lines rest
        end
      else resolve_bridge_lines rest
  end.

Definition test_mdns_advertisement : M bool :=
  call "test_mdns_advertisement"
    (try_except
       (log "Testing mDNS advertisement..." "INFO" ;;
        proc <- Popen env ["dns-sd"; "-B"; "_hap._tcp"; "local."] ;;
        time_sleep env 3 ;;
        proc_terminate proc ;;
        r <- proc_communicate env proc 1 ;;
        set_output (fst r) ;;
        output <- get_output ;;
        if contains "_hap._tcp" output then
          log "mDNS advertisement found!" "SUCCESS" ;;
          output <- get_output ;;
          found_bridge <- resolve_bridge_lines (split_on (ascii_of_nat 10) output) ;;
          if found_bridge then ret true
          else
            log "No SmartThings Bridge properly advertised" "WARN" ;;
            ret false
        else
          log "No HAP services found via mDNS" "ERROR" ;;
          ret false)
       (fun e =>
          match e with
          | Exc TimeoutExpired _ =>
              Some (output <- get_output ;;
                    ret (if contains "_hap._tcp" output then true else false))
          | Exc _ msg =>
              Some (log ("mDNS test failed: " ++ msg) "ERROR" ;;
                    ret false)
          | _ => None
          end)).

Definition test_hap_discovery_endpoint : M bool :=
  call "test_hap_discovery_endpoint"
    (try_except
       (let url := "http://localhost:" ++ str_Z (HAP_PORT cfg) ++ "/accessories" in
        try_except
          (response <- urlopen env url (TIMEOUT cfg) ;;
           let status := getcode response in
           log ("Unexpected success on /accessories: " ++ str_Z status) "WARN" ;;
           ret false)
          (fun e =>
             match e with
             | Exc (HTTPError code) _ =>
                 Some (if existsb (Z.eqb code) [401; 470] then
                         log ("HAP server properly requires pairing (code "
                              ++ str_Z code ++ ")") "SUCCESS" ;;
                         ret true
                       else
                         log ("Unexpected HTTP error: " ++ str_Z code) "ERROR" ;;
                         ret false)
             | Exc URLError msg =>
                 Some (log ("Cannot connect to HAP server: " ++ msg) "ERROR" ;;
                       ret false)
             | _ => None
             end))
       (except_Exception (fun e =>
          log ("HAP discovery test failed: " ++ e) "ERROR" ;;
          ret false))).

Definition test_web_api : M bool :=
  call "test_web_api"
    (try_except
       (let url := "http://localhost:" ++ str_Z (WEB_PORT cfg) ++ "/api/homekit/pairing" in
        response <- urlopen env url (TIMEOUT cfg) ;;
        body <- response_read_decode env response ;;
        data <- of_out (json_loads env body) ;;
        has_qr <- py_in "qrCode" data ;;
        cond <- (if has_qr then
                   a <- py_in "pairingCode" data ;;
                   if a then ret true
                   else
                     b <- py_in "setupCode" data ;;
                     if b then ret true else py_in "pinCode" data
                 else ret false) ;;
        if cond then
          log "Web API pairing endpoint working" "SUCCESS" ;;
          log ("Pairing info: " ++ json_dumps env data) "DEBUG" ;;
          ret true
        else
          log ("Web API returned unexpected data: " ++ py_repr env data) "ERROR" ;;
          ret false)
       (except_Exception (fun e =>
          log ("Web API test failed: " ++ e) "ERROR" ;;
          ret false))).

Definition test_hap_tcp_connection : M bool :=
  call "test_hap_tcp_connection"
    (try_except
       (log ("Testing TCP connection to HAP port " ++ str_Z (HAP_PORT cfg) ++ "...") "INFO" ;;
        sock <- socket_socket env ;;
        sock_settimeout sock (TIMEOUT cfg) ;;
        result <- sock_connect_ex env sock ("localhost", HAP_PORT cfg) ;;
        if result =? 0 then
          log "TCP connection to HAP port successful" "SUCCESS" ;;
          try_finally
            (try_except
               (sock_send env sock ("GET / HTTP/1.1" ++ crlf ++ "Host: localhost" ++ crlf ++ crlf) ;;
                response <- sock_recv env sock 1024 ;;
                if negb (String.eqb response "") then
                  log ("HAP server responded with " ++ str_Z (len response) ++ " bytes") "SUCCESS" ;;
                  if contains "HTTP" response then
                    log "HAP server speaks HTTP" "SUCCESS" ;;
                    ret true
                  else
                    log "HAP server response is not HTTP" "ERROR" ;;
                    ret false
                else
                  log "HAP server did not respond" "ERROR" ;;
                  ret false)
               (fun e =>
                  match e with
                  | Exc socket_timeout _ =>
                      Some (log "HAP server connection timed out" "ERROR" ;;
                            ret false)
                  | _ => None
                  end))
            (sock_close sock)
        else
          log ("Cannot connect to HAP port: error code " ++ str_Z result) "ERROR" ;;
          ret false)
       (except_Exception (fun e =>
          log ("TCP connection test failed: " ++ e) "ERROR" ;;
          ret false))).

(** The [results] dict: insertion-ordered, assignment to a present key keeps
    its place. *)
Definition dict : Type := list (string * bool).

Fixpoint dict_set (d : dict) (k : string) (v : bool) : dict :=
  match d with
  | [] => [(k, v)]
  | (k', v') :: d' =>
      if String.eqb k k' then (k', v) :: d' else (k', v') :: dict_set d' k v
  end.

Fixpoint dict_get (d : dict) (k : string) : option bool :=
  match d with
  | [] => None
  | (k', v') :: d' => if String.eqb k k' then Some v' else dict_get d' k
  end.

(** [results[k]], a [KeyError] when the key is absent. *)
Definition subscript (d : dict) (k : string) : M bool :=
  match dict_get d k with
  | Some v => ret v
  | None => raise (Exc OtherException ("'" ++ k ++ "'"))
  end.

(** [for test_name, passed in results.items(): log(...)]. *)
Fixpoint log_results (items : dict) : M unit :=
  match items with
  | [] => ret tt
  | (test_name, passed) :: rest =>
      let status := if passed then "✅ PASS" else "❌ FAIL" in
      log ("  " ++ test_name ++ ": " ++ status) (if passed then "INFO" else "ERROR") ;;
      log_results rest
  end.

(** The summary and verdict of [run_all_tests], from the comment [# Summary]
    to the end of the function. *)
Definition run_all_tests_summary (results : dict) : M bool :=
  log (nl ++ repeat_string "=" 50) "INFO" ;;
  log "Test Results:" "INFO" ;;
  log_results results ;;
  let all_passed := forallb (fun kv => snd kv) results in
  tcp <- subscript results "TCP Connection" ;;
  critical_passed <- (if tcp then subscript results "mDNS Advertisement" else ret false) ;;
  log (repeat_string "=" 50) "INFO" ;;
  if all_passed then
    log "✅ All tests passed - HAP server should be pairable" "SUCCESS" ;;
    ret true
  else if critical_passed then
    log "⚠️  Critical tests passed but some issues detected" "WARN" ;;
    ret true
  else
    log "❌ Critical tests failed - HAP server is NOT pairable" "ERROR" ;;
    ret false.

Definition run_all_tests : M bool :=
  call "run_all_tests"
    (log (repeat_string "=" 50) "INFO" ;;
     log "Starting HAP Pairing Tests" "INFO" ;;
     log (repeat_string "=" 50) "INFO" ;;
     let results := [("TCP Connection", false); ("HAP Discovery", false);
                     ("Web API", false); ("mDNS Advertisement", false)] in
     log (nl ++ "Test 1: TCP Connection to HAP Port") "INFO" ;;
     r <- test_hap_tcp_connection ;;
     let results := dict_set results "TCP Connection" r in
     log (nl ++ "Test 2: HAP Discovery Endpoint") "INFO" ;;
     r <- test_hap_discovery_endpoint ;;
     let results := dict_set results "HAP Discovery" r in
     log (nl ++ "Test 3: Web API Pairing Endpoint") "INFO" ;;
     r <- test_web_api ;;
     let results := dict_set results "Web API" r in
     log (nl ++ "Test 4: mDNS Advertisement") "INFO" ;;
     r <- test_mdns_advertisement ;;
     let results := dict_set results "mDNS Advertisement" r in
     run_all_tests_summary results).

Definition main : M unit :=
  call "main"
    (try_except
       (log "Waiting for server to stabilize..." "INFO" ;;
        time_sleep env 2 ;;
        success <- run_all_tests ;;
        sys_exit (if success then 0 else 1))
       (fun e =>
          match e with
          | KeyboardInterrupt =>
              Some (log (nl ++ "Tests interrupted by user") "WARN" ;;
                    sys_exit 130)
          | Exc _ msg =>
              Some (log ("Unexpected error: " ++ msg) "ERROR" ;;
                    sys_exit 1)
          | SystemExit _ => None
          end)).

End Script.

End HapPairing.

(** ** [test-mdns.py] *)

Module MdnsTest.

Section Script.

Variable env : Env.

Definition test_mdns_with_avahi : M bool :=
  call "test_mdns_with_avahi"
    (try_except
       (stdout <- subprocess_run env ["avahi-browse"; "-ptr"; "_hap._tcp"] 5 ;;
        if contains "SmartThings" stdout then ret true
        else ret false)
       (fun e =>
          match e with
          | Exc TimeoutExpired _ => Some (ret false)
          | Exc FileNotFoundError _ => Some (ret false)
          | _ => None
          end)).

Definition test_mdns_with_dns_sd : M bool :=
  call "test_mdns_with_dns_sd"
    (try_except
       (proc <- Popen env ["dns-sd"; "-B"; "_hap._tcp"; "local."] ;;
        time_sleep env 3 ;;
        proc_terminate proc ;;
        r <- proc_communicate env proc 1 ;;
        set_output (fst r) ;;
        output <- get_output ;;
        if negb (contains "_hap._tcp" output) then
          print_stderr "[FAIL] No HAP services found via mDNS" ;;
          ret false
        else
          print_stderr "[INFO] Found HAP services via mDNS" ;;
          proc <- Popen env ["dns-sd"; "-L"; "SmartThings Bridge"; "_hap._tcp"; "local."] ;;
          time_sleep env 3 ;;
          proc_terminate proc ;;
          r <- proc_communicate env proc 1 ;;
          set_output (fst r) ;;
          output <- get_output ;;
          if contains "can be reached at" output
             && (contains ":51826" output || contains "51826.local" output)
          then
            print_stderr "[SUCCESS] Bridge service properly advertised on port 51826" ;;
            ret true
          else
            proc <- Popen env ["dns-sd"; "-q"; "SmartThings HomeKit Bridge._hap._tcp.local"; "SRV"] ;;
            time_sleep env 2 ;;
            proc_terminate proc ;;
            r <- proc_communicate env proc 1 ;;
            set_output (fst r) ;;
            output <- get_output ;;
            if contains "51826" output then
              print_stderr "[SUCCESS] Bridge SRV record found" ;;
              ret true
            else ret false)
       (fun e =>
          match e with
          | Exc TimeoutExpired _ =>
              Some (output <- get_output ;;
                    if negb (String.eqb output "")
                       && (contains "SmartThings" output || contains "51826" output)
                    then
                      print_stderr "[SUCCESS] Bridge partially resolved" ;;
                      ret true
                    else ret false)
          | Exc _ msg =>
              Some (print_stderr ("[ERROR] dns-sd test failed: " ++ msg) ;;
                    ret false)
          | _ => None
          end)).

Definition test_direct_port : M bool :=
  call "test_direct_port"
    (try_except
       (sock <- socket_socket env ;;
        sock_settimeout sock 2 ;;
        result <- sock_connect_ex env sock ("localhost", 51826) ;;
        sock_close sock ;;
        if result =? 0 then
          print_stderr "[INFO] HAP port 51826 is listening" ;;
          ret true
        else
          print_stderr "[FAIL] HAP port 51826 is not accessible" ;;
          ret false)
       (except_Exception (fun e =>
          print_stderr ("[ERROR] Port test failed: " ++ e) ;;
          ret false))).

Definition main : M unit :=
  call "main"
    (print_stderr "[INFO] Testing mDNS advertisement for HAP server..." ;;
     port_ok <- test_direct_port ;;
     if negb port_ok then
       print_stderr "[FAIL] HAP server is not running on port 51826" ;;
       sys_exit 1
     else
       success <- (if String.eqb (sys_platform env) "darwin"
                   then test_mdns_with_dns_sd
                   else test_mdns_with_avahi) ;;
       if success then
         print_stderr "[SUCCESS] ✅ HAP server is properly advertised via mDNS" ;;
         sys_exit 0
       else
         print_stderr "[FAIL] ❌ HAP server is NOT properly advertised via mDNS" ;;
         sys_exit 1).

End Script.

End MdnsTest.

(** ** The exit status of the process

    The interpreter ends the process with the code of a [SystemExit], with 0
    when the script runs off its end, with 1 on an uncaught exception and,
    by the SIGINT convention, with 130 on an uncaught [KeyboardInterrupt]. *)
Definition exit_status (r : Res unit) : Z :=
  match r with
  | Ret _ => 0
  | Raise (SystemExit code) => code
  | Raise KeyboardInterrupt => 130
  | Raise (Exc _ _) => 1
  end.

(** ** Scenarios *)

Module Scenario.

(** A bridge that answers every probe as a healthy one does, seen from a host
    of the given platform.  The fields are overridden below one at a time. *)
Definition browse_reply : string :=
  "Browsing for _hap._tcp.local." ++ nl ++
  " Add 3 4 local. _hap._tcp. SmartThings Bridge 1A2B" ++ nl.

(** The instance name the bridge advertises; it is what [re.search] finds
    on the one line of [browse_reply] that names a bridge. *)
Definition bridge_name : string := "SmartThings Bridge 1A2B".

Definition resolve_reply : string :=
  "SmartThings Bridge 1A2B._hap._tcp.local. can be reached at host.local.:51826" ++ nl.

Definition pairing_payload : json :=
  JObj [("qrCode", JStr "X"); ("pairingCode", JStr "123-45-678")].

Definition healthy (platform : string) : Env :=
  {| sys_platform := platform;
     interrupt_at := None;
     os_socket := fun _ => Ok tt;
     os_connect_ex := fun _ => Ok 0;
     os_send := fun _ => Ok 35;
     os_recv := fun _ => Ok "HTTP/1.1 470 Connection Authorization Required";
     os_popen := fun _ _ => Ok tt;
     os_communicate := fun _ cmd =>
       match cmd with
       | _ :: "-B" :: _ => Ok (browse_reply, "")
       | _ => Ok (resolve_reply, "")
       end;
     os_run := fun _ _ => Ok "=;eth0;IPv4;SmartThings Bridge 1A2B;_hap._tcp;local";
     http_urlopen := fun url =>
       if contains "/accessories" url
       then Fault (HTTPError 470) "HTTP Error 470: Connection Authorization Required"
       else Ok {| getcode := 200; read_decode := Ok "{...}" |};
     json_loads := fun _ => Ok pairing_payload;
     json_dumps := fun _ => "{...}";
     py_repr := fun _ => "{...}";
     re_search := fun _ line =>
       if contains bridge_name line then Some bridge_name else None |}.

Definition with_interrupt (n : nat) (e : Env) : Env :=
  {| sys_platform := sys_platform e; interrupt_at := Some n;
     os_socket := os_socket e; os_connect_ex := os_connect_ex e;
     os_send := os_send e; os_recv := os_recv e; os_popen := os_popen e;
     os_communicate := os_communicate e; os_run := os_run e;
     http_urlopen := http_urlopen e; json_loads := json_loads e;
     json_dumps := json_dumps e; py_repr := py_repr e;
     re_search := re_search e |}.

Definition with_connect_ex (r : Out Z) (e : Env) : Env :=
  {| sys_platform := sys_platform e; interrupt_at := interrupt_at e;
     os_socket := os_socket e; os_connect_ex := fun _ => r;
     os_send := os_send e; os_recv := os_recv e; os_popen := os_popen e;
     os_communicate := os_communicate e; os_run := os_run e;
     http_urlopen := http_urlopen e; json_loads := json_loads e;
     json_dumps := json_dumps e; py_repr := py_repr e;
     re_search := re_search e |}.

Definition with_communicate (f : nat -> list string -> Out (string * string)) (e : Env) : Env :=
  {| sys_platform := sys_platform e; interrupt_at := interrupt_at e;
     os_socket := os_socket e; os_connect_ex := os_connect_ex e;
     os_send := os_send e; os_recv := os_recv e; os_popen := os_popen e;
     os_communicate := f; os_run := os_run e;
     http_urlopen := http_urlopen e; json_loads := json_loads e;
     json_dumps := json_dumps e; py_repr := py_repr e;
     re_search := re_search e |}.

Definition with_urlopen (f : string -> Out http_response) (e : Env) : Env :=
  {| sys_platform := sys_platform e; interrupt_at := interrupt_at e;
     os_socket := os_socket e; os_connect_ex := os_connect_ex e;
     os_send := os_send e; os_recv := os_recv e; os_popen := os_popen e;
     os_communicate := os_communicate e; os_run := os_run e;
     http_urlopen := f; json_loads := json_loads e;
     json_dumps := json_dumps e; py_repr := py_repr e;
     re_search := re_search e |}.

Definition with_payload (d : json) (e : Env) : Env :=
  {| sys_platform := sys_platform e; interrupt_at := interrupt_at e;
     os_socket := os_socket e; os_connect_ex := os_connect_ex e;
     os_send := os_send e; os_recv := os_recv e; os_popen := os_popen e;
     os_communicate := os_communicate e; os_run := os_run e;
     http_urlopen := http_urlopen e; json_loads := fun _ => Ok d;
     json_dumps := json_dumps e; py_repr := py_repr e;
     re_search := re_search e |}.

(** A JSON array that merely lists the field names. *)
Definition array_payload : json := JArr [JStr "qrCode"; JStr "pinCode"].

(** The companion web server is down, and the HAP port serves [/accessories]
    without asking for pairing. *)
Definition unreachable_web : string -> Out http_response :=
  fun url =>
    if contains "/accessories" url
    then Ok {| getcode := 200; read_decode := Ok "{}" |}
    else Fault URLError "<urlopen error [Errno 111] Connection refused>".

Definition with_run (f : nat -> list string -> Out string) (e : Env) : Env :=
  {| sys_platform := sys_platform e; interrupt_at := interrupt_at e;
     os_socket := os_socket e; os_connect_ex := os_connect_ex e;
     os_send := os_send e; os_recv := os_recv e; os_popen := os_popen e;
     os_communicate := os_communicate e; os_run := f;
     http_urlopen := http_urlopen e; json_loads := json_loads e;
     json_dumps := json_dumps e; py_repr := py_repr e;
     re_search := re_search e |}.

(** avahi-browse is installed but may not be executed. *)
Definition run_denied : nat -> list string -> Out string :=
  fun _ _ => Fault OtherException "[Errno 13] Permission denied: 'avahi-browse'".

(** A browser that is still running when [communicate] gives up. *)
Definition never_answers : nat -> list string -> Out (string * string) :=
  fun _ _ => Fault TimeoutExpired "Command timed out after 1 seconds".

Definition with_popen (f : nat -> list string -> Out unit) (e : Env) : Env :=
  {| sys_platform := sys_platform e; interrupt_at := interrupt_at e;
     os_socket := os_socket e; os_connect_ex := os_connect_ex e;
     os_send := os_send e; os_recv := os_recv e; os_popen := f;
     os_communicate := os_communicate e; os_run := os_run e;
     http_urlopen := http_urlopen e; json_loads := json_loads e;
     json_dumps := json_dumps e; py_repr := py_repr e;
     re_search := re_search e |}.

(** dns-sd is not installed (a Linux host). *)
Definition no_dns_sd : nat -> list string -> Out unit :=
  fun _ _ => Fault FileNotFoundError "[Errno 2] No such file or directory: 'dns-sd'".

(** What a healthy bridge makes dns-sd print, by command line. *)
Definition bonjour (cmd : list string) : string :=
  match cmd with
  | _ :: "-B" :: _ => browse_reply
  | _ => resolve_reply
  end.

(** A browser that exits at once and has printed nothing. *)
Definition silent : nat -> list string -> Out (string * string) :=
  fun _ _ => Ok ("", "").

(** The browse answers, every later dns-sd command is still running when
    [communicate] gives up. *)
Definition only_browse_answers : nat -> list string -> Out (string * string) :=
  fun _ cmd =>
    match cmd with
    | _ :: "-B" :: _ => Ok (browse_reply, "")
    | _ => Fault TimeoutExpired "Command timed out after 1 seconds"
    end.

End Scenario.

(** * Vocabulary of the statements *)

(** [emits Pev Pex m]: from any state, [m] extends the trace by events that
    all satisfy [Pev], and an exception that leaves [m] satisfies [Pex]. *)
Definition emits {A} (Pev : event -> Prop) (Pex : exn -> Prop) (m : M A) : Prop :=
  forall s,
    (exists l, trace (snd (m s)) = (trace s ++ l)%list /\ Forall Pev l)
    /\ match fst (m s) with
       | Raise e => Pex e
       | Ret _ => True
       end.

(** What the world can make a blocking call raise. *)
Definition raisable (env : Env) (e : exn) : Prop :=
  match e with
  | Exc _ _ => True
  | KeyboardInterrupt => interrupt_at env <> None
  | SystemExit _ => False
  end.

Definition anything (e : exn) : Prop := True.

Definition not_exit (e : exn) : Prop :=
  match e with
  | SystemExit _ => False
  | _ => True
  end.

Definition any_event (e : event) : Prop := True.

Definition not_call (e : event) : Prop :=
  match e with
  | Call _ => False
  | _ => True
  end.

(** Every command started is the given tool. *)
Definition spawns_only (tool : string) (e : event) : Prop :=
  match e with
  | Spawn cmd => hd "" cmd = tool
  | _ => True
  end.

(** Neither a command started nor a discovery strategy called. *)
Definition no_discovery (e : event) : Prop :=
  match e with
  | Spawn _ => False
  | Call fn => fn <> "test_mdns_with_dns_sd" /\ fn <> "test_mdns_with_avahi"
  | _ => True
  end.

(** [m] records exactly the calls [l], in this order. *)
Definition calls_exactly {A} (l : list string) (m : M A) : Prop :=
  forall s, calls_of (trace (snd (m s))) = (calls_of (trace s) ++ l)%list.

(** [m] records a prefix of the calls [l], in this order, and all of [l] when
    it returns. *)
Definition calls_prefix {A} (l : list string) (m : M A) : Prop :=
  forall s, exists l1 l2,
    calls_of (trace (snd (m s))) = (calls_of (trace s) ++ l1)%list
    /\ l = (l1 ++ l2)%list
    /\ (forall a, fst (m s) = Ret a -> l2 = []).

(** [m] returns: no exception leaves it. *)
Definition returns {A} (m : M A) : Prop :=
  forall s, exists a, fst (m s) = Ret a.

(** The last line written to stderr. *)
Definition last_line (s : State) : string := last (stderr_of (trace s)) "".

(** The HTTP status [urlopen] met, when it met one: the code of the response
    it returned or of the [HTTPError] it raised. *)
Definition http_status (o : Out http_response) : option Z :=
  match o with
  | Ok r => Some (getcode r)
  | Fault (HTTPError code) _ => Some code
  | Fault _ _ => None
  end.

(** A decoded JSON object has the key. *)
Definition has_key (key : string) (members : list (string * json)) : bool :=
  existsb (fun kv => String.eqb key (fst kv)) members.

(** The browser a platform-aware probe is to use on this host. *)
Definition platform_tool (env : Env) : string :=
  if String.eqb (sys_platform env) "darwin" then "dns-sd" else "avahi-browse".

(** Every command started in the trace is the browser of the host. *)
Definition follows_platform (env : Env) (t : list event) : bool :=
  forallb (fun cmd => String.eqb (hd "" cmd) (platform_tool env)) (spawned_of t).

(** The command lines the scripts start. *)
Definition dns_sd_browse : list string := ["dns-sd"; "-B"; "_hap._tcp"; "local."].

Definition dns_sd_resolve (name : string) : list string :=
  ["dns-sd"; "-L"; name; "_hap._tcp"; "local."].

Definition dns_sd_lookup : list string := dns_sd_resolve "SmartThings Bridge".

Definition dns_sd_query : list string :=
  ["dns-sd"; "-q"; "SmartThings HomeKit Bridge._hap._tcp.local"; "SRV"].

Definition avahi_browse : list string := ["avahi-browse"; "-ptr"; "_hap._tcp"].

(** A line of the browse output from which [test_mdns_advertisement] takes a
    bridge name. *)
Definition names_bridge (env : Env) (line : string) : bool :=
  contains "SmartThings Bridge" line
  && match re_search env "SmartThings Bridge \w+" line with
     | Some _ => true
     | None => false
     end.

(** A line of the browse output whose bridge name resolves to port 51826,
    when dns-sd prints [answer cmd] for the command line [cmd]. *)
Definition bridge_confirmed (env : Env) (answer : list string -> string) (line : string)
    : bool :=
  contains "SmartThings Bridge" line
  && match re_search env "SmartThings Bridge \w+" line with
     | Some name =>
         contains "can be reached at" (answer (dns_sd_resolve name))
         && contains "51826" (answer (dns_sd_resolve name))
     | None => false
     end.

(** The state in which [main], called in [s], calls [run_all_tests] when the
    user does not interrupt the wait. *)
Definition main_start (s : State) : State :=
  tick (emit (Stderr "[INFO] Waiting for server to stabilize...")
          (bind_output None (emit (Call "main") s))).

(** The state in which [run_all_tests], called in [s], calls its first probe. *)
Definition run_all_tests_start (s : State) : State :=
  snd ((HapPairing.log (repeat_string "=" 50) "INFO" ;;
        HapPairing.log "Starting HAP Pairing Tests" "INFO" ;;
        HapPairing.log (repeat_string "=" 50) "INFO" ;;
        HapPairing.log (nl ++ "Test 1: TCP Connection to HAP Port") "INFO")
         (bind_output None (emit (Call "run_all_tests") s))).

(** The state in which [run_all_tests], called in [s], calls its last probe. *)
Definition run_all_tests_mdns_start (cfg : HapPairing.Config) (env : Env) (s : State) : State :=
  snd ((HapPairing.test_hap_tcp_connection cfg env ;;
        HapPairing.log (nl ++ "Test 2: HAP Discovery Endpoint") "INFO" ;;
        HapPairing.test_hap_discovery_endpoint cfg env ;;
        HapPairing.log (nl ++ "Test 3: Web API Pairing Endpoint") "INFO" ;;
        HapPairing.test_web_api cfg env ;;
        HapPairing.log (nl ++ "Test 4: mDNS Advertisement") "INFO")
         (run_all_tests_start s)).

(** The user presses Ctrl-C during a blocking call numbered from [a] up to,
    not including, [b]. *)
Definition interrupted_within (env : Env) (a b : nat) : Prop :=
  exists n, interrupt_at env = Some n /\ (a <= n < b)%nat.

Definition raised_interrupt {A} (r : Res A) : Prop :=
  match r with
  | Raise KeyboardInterrupt => True
  | _ => False
  end.

(** [m] lets a [KeyboardInterrupt] through: it raises one exactly when the
    user interrupts one of its blocking calls, and the clock never goes back. *)
Definition interruptible {A} (env : Env) (m : M A) : Prop :=
  forall s,
    (clock s <= clock (snd (m s)))%nat
    /\ (raised_interrupt (fst (m s))
        <-> interrupted_within env (clock s) (clock (snd (m s)))).

(** The name and the first command of the discovery strategy that [main] of
    [test-mdns.py] is to run on this host. *)
Definition platform_strategy_name (env : Env) : string :=
  if String.eqb (sys_platform env) "darwin"
  then "test_mdns_with_dns_sd" else "test_mdns_with_avahi".

Definition platform_browse (env : Env) : list string :=
  if String.eqb (sys_platform env) "darwin" then dns_sd_browse else avahi_browse.

(** The first command [m] starts is [cmd], in every run. *)
Definition spawns_first {A} (cmd : list string) (m : M A) : Prop :=
  forall s, exists more,
    spawned_of (trace (snd (m s))) = (spawned_of (trace s) ++ cmd :: more)%list.

(** No exception other than a [KeyboardInterrupt] leaves [m]. *)
Definition returns_unless_interrupted {A} (m : M A) : Prop :=
  forall s, match fst (m s) with
            | Ret _ => True
            | Raise e => e = KeyboardInterrupt
            end.

(** [m] records a prefix of the calls [l], in this order, and all of [l]
    unless a [KeyboardInterrupt] leaves it. *)
Definition calls_unless_interrupted {A} (l : list string) (m : M A) : Prop :=
  forall s, exists l1 l2,
    calls_of (trace (snd (m s))) = (calls_of (trace s) ++ l1)%list
    /\ l = (l1 ++ l2)%list
    /\ (~ raised_interrupt (fst (m s)) -> l2 = []).

(** * Reasoning about runs *)

Section Emits.

Variable env : Env.
Variable Pev : event -> Prop.
Variable Pex : exn -> Prop.

Lemma extends_refl (t : list event) : exists l, t = (t ++ l)%list /\ Forall Pev l.
Proof. exists []. split; [now rewrite app_nil_r | constructor]. Qed.

Lemma extends_one (t : list event) (e : event) :
  Pev e -> exists l, (t ++ [e])%list = (t ++ l)%list /\ Forall Pev l.
Proof. intros H. exists [e]. split; [reflexivity | repeat constructor; exact H]. Qed.

Lemma extends_trans (t1 t2 t3 : list event) :
  (exists l, t2 = (t1 ++ l)%list /\ Forall Pev l) ->
  (exists l, t3 = (t2 ++ l)%list /\ Forall Pev l) ->
  exists l, t3 = (t1 ++ l)%list /\ Forall Pev l.
Proof.
  intros [l1 [E1 F1]] [l2 [E2 F2]]. exists (l1 ++ l2)%list. split.
  - rewrite E2, E1. now rewrite app_assoc.
  - apply Forall_app. split; assumption.
Qed.

Lemma emits_ret {A} (a : A) : emits Pev Pex (ret a).
Proof. intros s. split; [apply extends_refl | exact I]. Qed.

Lemma emits_raise {A} (e : exn) : Pex e -> emits Pev Pex (@raise A e).
Proof.
  intros H s. split; [apply extends_refl | exact H].
Qed.

Lemma emits_sys_exit {A} (code : Z) :
  Pex (SystemExit code) -> emits Pev Pex (@sys_exit A code).
Proof. apply emits_raise. Qed.

Lemma emits_bind {A B} (m : M A) (k : A -> M B) :
  emits Pev Pex m -> (forall a, emits Pev Pex (k a)) -> emits Pev Pex (bind m k).
Proof.
  intros Hm Hk s. unfold bind.
  destruct (Hm s) as [Ht He]. destruct (m s) as [[a | e] s1]; simpl in *.
  - destruct (Hk a s1) as [Ht' He']. split; [| exact He'].
    eapply extends_trans; eassumption.
  - split; [exact Ht | exact He].
Qed.

Lemma emits_try_except {A} (m : M A) (h : exn -> option (M A)) :
  emits Pev Pex m ->
  (forall e k, Pex e -> h e = Some k -> emits Pev Pex k) ->
  emits Pev Pex (try_except m h).
Proof.
  intros Hm Hh s. unfold try_except.
  destruct (Hm s) as [Ht He]. destruct (m s) as [[a | e] s1]; simpl in *.
  - split; [exact Ht | exact I].
  - destruct (h e) as [k |] eqn:Ek.
    + destruct (Hh e k He Ek s1) as [Ht' He'].
      split; [| exact He']. eapply extends_trans; eassumption.
    + split; [exact Ht | exact He].
Qed.

Lemma emits_except_Exception {A} (m : M A) (k : string -> M A) :
  emits Pev Pex m ->
  (forall msg, emits Pev Pex (k msg)) ->
  emits Pev Pex (try_except m (except_Exception k)).
Proof.
  intros Hm Hk. apply emits_try_except; [exact Hm |].
  intros [| c | c msg] k' _ E; simpl in E; try discriminate.
  inversion E; subst. apply Hk.
Qed.

Lemma emits_try_finally {A} (m : M A) (f : M unit) :
  emits Pev Pex m -> emits Pev Pex f -> emits Pev Pex (try_finally m f).
Proof.
  intros Hm Hf s. unfold try_finally.
  destruct (Hm s) as [Ht He]. destruct (m s) as [r s1]; simpl in *.
  destruct (Hf s1) as [Ht' He']. destruct (f s1) as [[u | e] s2]; simpl in *.
  - split; [eapply extends_trans; eassumption | exact He].
  - split; [eapply extends_trans; eassumption | exact He'].
Qed.

Lemma emits_do_emit (e : event) : Pev e -> emits Pev Pex (do_emit e).
Proof. intros H s. split; [apply extends_one; exact H | exact I]. Qed.

Lemma emits_print_stderr (line : string) :
  Pev (Stderr line) -> emits Pev Pex (print_stderr line).
Proof. apply emits_do_emit. Qed.

Lemma emits_log (message level : string) :
  (forall l, Pev (Stderr l)) -> emits Pev Pex (HapPairing.log message level).
Proof. intros H. apply emits_print_stderr. apply H. Qed.

Lemma emits_sock_close (h : nat) : Pev (SockClose h) -> emits Pev Pex (sock_close h).
Proof. apply emits_do_emit. Qed.

Lemma emits_call {A} (fn : string) (body : M A) :
  Pev (Call fn) -> emits Pev Pex body -> emits Pev Pex (call fn body).
Proof.
  intros Hc Hb s. unfold call.
  destruct (Hb (bind_output None (emit (Call fn) s))) as [Ht He].
  destruct (body _) as [r s1]; simpl in *. split; [| exact He].
  eapply extends_trans; [apply extends_one; exact Hc | exact Ht].
Qed.

Lemma emits_set_output (o : string) : emits Pev Pex (set_output o).
Proof. intros s. split; [apply extends_refl | exact I]. Qed.

Lemma emits_get_output :
  (forall c msg, Pex (Exc c msg)) -> emits Pev Pex get_output.
Proof.
  intros H s. unfold get_output. destruct (output s); simpl.
  - split; [apply extends_refl | exact I].
  - split; [apply extends_refl | apply H].
Qed.

Lemma emits_of_out {A} (o : Out A) :
  (forall c msg, Pex (Exc c msg)) -> emits Pev Pex (of_out o).
Proof.
  intros H s. destruct o; simpl.
  - split; [apply extends_refl | exact I].
  - split; [apply extends_refl | apply H].
Qed.

Section Blocking.

Hypothesis Hexc : forall c msg, Pex (Exc c msg).
Hypothesis Hint : interrupt_at env <> None -> Pex KeyboardInterrupt.

Lemma interrupted_possible (n : nat) :
  interrupted env n = true -> interrupt_at env <> None.
Proof. unfold interrupted. destruct (interrupt_at env); [discriminate | discriminate]. Qed.

Lemma emits_extern {A} (o : Out A) : emits Pev Pex (extern env o).
Proof.
  intros s. unfold extern. destruct (interrupted env (clock s)) eqn:Ei; simpl.
  - split; [apply extends_refl |].
    apply Hint. eapply interrupted_possible; eassumption.
  - destruct o; simpl.
    + split; [apply extends_refl | exact I].
    + split; [apply extends_refl | apply Hexc].
Qed.

Lemma emits_time_sleep (secs : Z) : emits Pev Pex (time_sleep env secs).
Proof. apply emits_extern. Qed.

Lemma emits_sock_connect_ex (h : nat) (addr : string * Z) :
  emits Pev Pex (sock_connect_ex env h addr).
Proof. apply emits_extern. Qed.

Lemma emits_sock_send (h : nat) (data : string) : emits Pev Pex (sock_send env h data).
Proof. apply emits_extern. Qed.

Lemma emits_sock_recv (h : nat) (n : Z) : emits Pev Pex (sock_recv env h n).
Proof. apply emits_extern. Qed.

Lemma emits_proc_communicate (p : nat * list string) (t : Z) :
  emits Pev Pex (proc_communicate env p t).
Proof. apply emits_extern. Qed.

Lemma emits_urlopen (url : string) (t : Z) : emits Pev Pex (urlopen env url t).
Proof. apply emits_extern. Qed.

Lemma emits_response_read_decode (r : http_response) :
  emits Pev Pex (response_read_decode env r).
Proof. apply emits_extern. Qed.

Lemma emits_socket_socket :
  (forall h, Pev (SockOpen h)) -> emits Pev Pex (socket_socket env).
Proof.
  intros Ho s. unfold socket_socket.
  destruct (emits_extern (os_socket env (next_id s)) s) as [Ht He].
  destruct (extern env _ s) as [[u | e] s1]; simpl in *.
  - split; [| exact I].
    eapply extends_trans; [exact Ht | apply extends_one; apply Ho].
  - split; [exact Ht | exact He].
Qed.

Lemma emits_Popen (cmd : list string) :
  Pev (Spawn cmd) -> emits Pev Pex (Popen env cmd).
Proof.
  intros Hs s. unfold Popen.
  destruct (emits_extern (os_popen env (next_id s) cmd) (emit (Spawn cmd) s)) as [Ht He].
  destruct (extern env _ _) as [[u | e] s1]; simpl in *.
  - split; [| exact I].
    eapply extends_trans; [apply extends_one; exact Hs | exact Ht].
  - split; [| exact He].
    eapply extends_trans; [apply extends_one; exact Hs | exact Ht].
Qed.

Lemma emits_subprocess_run (cmd : list string) (t : Z) :
  Pev (Spawn cmd) -> emits Pev Pex (subprocess_run env cmd t).
Proof.
  intros Hs s. unfold subprocess_run.
  destruct (emits_extern (os_run env (next_id s) cmd) (emit (Spawn cmd) s)) as [Ht He].
  destruct (extern env _ _) as [r s1]; simpl in *.
  split; [| exact He].
  eapply extends_trans; [apply extends_one; exact Hs | exact Ht].
Qed.

End Blocking.

Lemma emits_py_in (key : string) (data : json) :
  (forall c msg, Pex (Exc c msg)) -> emits Pev Pex (py_in key data).
Proof.
  intros H. destruct data; simpl; first [apply emits_ret | apply emits_raise; apply H].
Qed.

End Emits.

(** ** Automation: one syntax-directed step of an [emits] proof *)

Ltac emits_side :=
  intros; simpl; first [exact I | reflexivity | assumption | discriminate | tauto | auto].

Ltac emits_handler :=
  let e := fresh "e" in
  let k := fresh "k" in
  let E := fresh "E" in
  intros e k _ E;
  destruct e as [| ? | [] ?]; simpl in E; try discriminate E;
  inversion E; subst; clear E.

Ltac emits_step :=
  lazymatch goal with
  | |- emits _ _ (ret _) => apply emits_ret
  | |- emits _ _ (bind _ _) => apply emits_bind; [| intros ?]
  | |- emits _ _ (try_except _ (except_Exception _)) =>
      apply emits_except_Exception; [| intros ?]
  | |- emits _ _ (try_except _ _) => apply emits_try_except; [| emits_handler]
  | |- emits _ _ (try_finally _ _) => apply emits_try_finally
  | |- emits _ _ (call _ _) => apply emits_call; [emits_side |]
  | |- emits _ _ (HapPairing.log _ _) => apply emits_log; emits_side
  | |- emits _ _ (print_stderr _) => apply emits_print_stderr; emits_side
  | |- emits _ _ (sock_close _) => apply emits_sock_close; emits_side
  | |- emits _ _ (sock_settimeout _ _) => apply emits_ret
  | |- emits _ _ (proc_terminate _) => apply emits_ret
  | |- emits _ _ (set_output _) => apply emits_set_output
  | |- emits _ _ get_output => apply emits_get_output; emits_side
  | |- emits _ _ (of_out _) => apply emits_of_out; emits_side
  | |- emits _ _ (py_in _ _) => apply emits_py_in; emits_side
  | |- emits _ _ (time_sleep _ _) => apply emits_time_sleep; emits_side
  | |- emits _ _ (sock_connect_ex _ _ _) => apply emits_sock_connect_ex; emits_side
  | |- emits _ _ (sock_send _ _ _) => apply emits_sock_send; emits_side
  | |- emits _ _ (sock_recv _ _ _) => apply emits_sock_recv; emits_side
  | |- emits _ _ (proc_communicate _ _ _) => apply emits_proc_communicate; emits_side
  | |- emits _ _ (urlopen _ _ _) => apply emits_urlopen; emits_side
  | |- emits _ _ (response_read_decode _ _) => apply emits_response_read_decode; emits_side
  | |- emits _ _ (socket_socket _) => apply emits_socket_socket; emits_side
  | |- emits _ _ (Popen _ _) => apply emits_Popen; emits_side
  | |- emits _ _ (subprocess_run _ _ _) => apply emits_subprocess_run; emits_side
  | |- emits _ _ (sys_exit _) => apply emits_sys_exit; emits_side
  | |- emits _ _ (raise _) => apply emits_raise; emits_side
  | |- emits _ _ (if ?b then _ else _) => destruct b
  | |- emits _ _ (match ?x with _ => _ end) => destruct x
  | |- emits _ _ (let _ := _ in _) => cbv zeta
  end.

Ltac emits_auto := repeat emits_step.

(** ** The functions of both scripts, as emitters *)

Section ScriptEffects.

Variable env : Env.
Variable Pev : event -> Prop.
Variable Pex : exn -> Prop.

Hypothesis Hexc : forall c msg, Pex (Exc c msg).
Hypothesis Hint : interrupt_at env <> None -> Pex KeyboardInterrupt.
Hypothesis Hstderr : forall l, Pev (Stderr l).
Hypothesis Hopen : forall h, Pev (SockOpen h).
Hypothesis Hclose : forall h, Pev (SockClose h).

Lemma emits_subscript (d : HapPairing.dict) (k : string) :
  emits Pev Pex (HapPairing.subscript d k).
Proof. unfold HapPairing.subscript. emits_auto. Qed.

Lemma emits_log_results (d : HapPairing.dict) :
  emits Pev Pex (HapPairing.log_results d).
Proof.
  induction d as [| [name passed] d IH]; simpl.
  - apply emits_ret.
  - apply emits_bind; [apply emits_log; exact Hstderr | intros _; exact IH].
Qed.

Lemma emits_run_all_tests_summary (d : HapPairing.dict) :
  emits Pev Pex (HapPairing.run_all_tests_summary d).
Proof.
  unfold HapPairing.run_all_tests_summary.
  repeat first [emits_step | apply emits_log_results | apply emits_subscript].
Qed.

Lemma emits_resolve_bridge_lines (lines : list string) :
  (forall args, Pev (Spawn ("dns-sd" :: args))) ->
  emits Pev Pex (HapPairing.resolve_bridge_lines env lines).
Proof.
  intros Hdns. induction lines as [| line rest IH].
  - apply emits_ret.
  - cbn [HapPairing.resolve_bridge_lines].
    repeat first [exact IH | emits_step].
Qed.

Lemma emits_test_mdns_advertisement :
  Pev (Call "test_mdns_advertisement") ->
  (forall args, Pev (Spawn ("dns-sd" :: args))) ->
  emits Pev Pex (HapPairing.test_mdns_advertisement env).
Proof.
  intros Hcall Hdns. unfold HapPairing.test_mdns_advertisement.
  repeat first [emits_step | apply emits_resolve_bridge_lines; exact Hdns].
Qed.

Lemma emits_test_hap_tcp_connection (cfg : HapPairing.Config) :
  Pev (Call "test_hap_tcp_connection") ->
  emits Pev Pex (HapPairing.test_hap_tcp_connection cfg env).
Proof. intros Hcall. unfold HapPairing.test_hap_tcp_connection. emits_auto. Qed.

Lemma emits_test_port_open (host : string) (port timeout : Z) :
  Pev (Call "test_port_open") ->
  emits Pev Pex (HapPairing.test_port_open env host port timeout).
Proof. intros Hcall. unfold HapPairing.test_port_open. emits_auto. Qed.

Lemma emits_test_hap_discovery_endpoint (cfg : HapPairing.Config) :
  Pev (Call "test_hap_discovery_endpoint") ->
  emits Pev Pex (HapPairing.test_hap_discovery_endpoint cfg env).
Proof. intros Hcall. unfold HapPairing.test_hap_discovery_endpoint. emits_auto. Qed.

Lemma emits_test_web_api (cfg : HapPairing.Config) :
  Pev (Call "test_web_api") ->
  emits Pev Pex (HapPairing.test_web_api cfg env).
Proof. intros Hcall. unfold HapPairing.test_web_api. emits_auto. Qed.

Lemma emits_run_all_tests (cfg : HapPairing.Config) :
  (forall fn, Pev (Call fn)) ->
  (forall args, Pev (Spawn ("dns-sd" :: args))) ->
  emits Pev Pex (HapPairing.run_all_tests cfg env).
Proof.
  intros Hcall Hdns. unfold HapPairing.run_all_tests.
  repeat first
    [ emits_step
    | apply emits_test_hap_tcp_connection; apply Hcall
    | apply emits_test_hap_discovery_endpoint; apply Hcall
    | apply emits_test_web_api; apply Hcall
    | apply emits_test_mdns_advertisement; [apply Hcall | exact Hdns]
    | apply emits_run_all_tests_summary ].
Qed.

Lemma emits_test_direct_port :
  Pev (Call "test_direct_port") -> emits Pev Pex (MdnsTest.test_direct_port env).
Proof. intros Hcall. unfold MdnsTest.test_direct_port. emits_auto. Qed.

Lemma emits_test_mdns_with_avahi :
  Pev (Call "test_mdns_with_avahi") ->
  (forall args, Pev (Spawn ("avahi-browse" :: args))) ->
  emits Pev Pex (MdnsTest.test_mdns_with_avahi env).
Proof. intros Hcall Havahi. unfold MdnsTest.test_mdns_with_avahi. emits_auto. Qed.

Lemma emits_test_mdns_with_dns_sd :
  Pev (Call "test_mdns_with_dns_sd") ->
  (forall args, Pev (Spawn ("dns-sd" :: args))) ->
  emits Pev Pex (MdnsTest.test_mdns_with_dns_sd env).
Proof. intros Hcall Hdns. unfold MdnsTest.test_mdns_with_dns_sd. emits_auto. Qed.

End ScriptEffects.

(** ** Projections of a trace *)

Lemma stderr_of_app (t1 t2 : list event) :
  stderr_of (t1 ++ t2) = (stderr_of t1 ++ stderr_of t2)%list.
Proof. unfold stderr_of. apply flat_map_app. Qed.

Lemma calls_of_app (t1 t2 : list event) :
  calls_of (t1 ++ t2) = (calls_of t1 ++ calls_of t2)%list.
Proof. unfold calls_of. apply flat_map_app. Qed.

Lemma spawned_of_app (t1 t2 : list event) :
  spawned_of (t1 ++ t2) = (spawned_of t1 ++ spawned_of t2)%list.
Proof. unfold spawned_of. apply flat_map_app. Qed.

Lemma last_app_cons {A} (l1 : list A) (x : A) (l2 : list A) (d : A) :
  last (l1 ++ x :: l2) d = last (x :: l2) d.
Proof.
  induction l1 as [| a l1 IH]; [reflexivity |].
  cbn [app]. rewrite <- IH. simpl.
  destruct (l1 ++ x :: l2)%list eqn:E; [| reflexivity].
  destruct l1; discriminate.
Qed.

(** Evaluates a run from a state given by its fields and reads the last line
    off the part of the trace the run added. *)
Ltac last_line_tac :=
  unfold last_line; cbv -[app last stderr_of];
  rewrite <- ?app_assoc; rewrite stderr_of_app;
  cbn [stderr_of flat_map app]; rewrite last_app_cons; reflexivity.

(** * The verdict of [run_all_tests] *)

(** C1.  Given the outcomes of the four named probes, the verdict of
    [run_all_tests] is [True] exactly when both critical probes (TCP Connection
    and mDNS Advertisement) passed, whatever the other two did; its closing log
    line tells the three cases apart: all four passed, only the critical pair
    is guaranteed (a degraded pass, still [True]), or a critical probe failed
    ([False]). *)
Theorem run_all_tests_verdict (tcp disc web mdns : bool) (s : State) :
  let results := [("TCP Connection", tcp); ("HAP Discovery", disc);
                  ("Web API", web); ("mDNS Advertisement", mdns)] in
  let r := HapPairing.run_all_tests_summary results s in
  fst r = Ret (tcp && mdns)
  /\ last_line (snd r) =
       (if tcp && disc && web && mdns
        then "[SUCCESS] ✅ All tests passed - HAP server should be pairable"
        else if tcp && mdns
        then "[WARN] ⚠️  Critical tests passed but some issues detected"
        else "[ERROR] ❌ Critical tests failed - HAP server is NOT pairable").
Proof.
  destruct s as [t n c o].
  destruct tcp, disc, web, mdns; (split; [reflexivity | last_line_tac]).
Qed.

(** The dict [run_all_tests] hands to its summary holds the outcomes of the
    four probes under their names, in the order the probes ran. *)
Lemma run_all_tests_collects (cfg : HapPairing.Config) (env : Env) :
  HapPairing.run_all_tests cfg env =
  call "run_all_tests"
    (HapPairing.log (repeat_string "=" 50) "INFO" ;;
     HapPairing.log "Starting HAP Pairing Tests" "INFO" ;;
     HapPairing.log (repeat_string "=" 50) "INFO" ;;
     HapPairing.log (nl ++ "Test 1: TCP Connection to HAP Port") "INFO" ;;
     tcp <- HapPairing.test_hap_tcp_connection cfg env ;;
     HapPairing.log (nl ++ "Test 2: HAP Discovery Endpoint") "INFO" ;;
     disc <- HapPairing.test_hap_discovery_endpoint cfg env ;;
     HapPairing.log (nl ++ "Test 3: Web API Pairing Endpoint") "INFO" ;;
     web <- HapPairing.test_web_api cfg env ;;
     HapPairing.log (nl ++ "Test 4: mDNS Advertisement") "INFO" ;;
     mdns <- HapPairing.test_mdns_advertisement env ;;
     HapPairing.run_all_tests_summary
       [("TCP Connection", tcp); ("HAP Discovery", disc);
        ("Web API", web); ("mDNS Advertisement", mdns)]).
Proof. reflexivity. Qed.

(** * The exit status of the driver *)

Lemma run_all_tests_never_exits (cfg : HapPairing.Config) (env : Env) :
  emits any_event not_exit (HapPairing.run_all_tests cfg env).
Proof. apply emits_run_all_tests; intros; exact I. Qed.

(** C2.  [main] always ends the process through [sys.exit]: with 0 when
    [run_all_tests] returned [True] (full or degraded pass), with 1 when it
    returned [False] or when an [Exception] escaped the try block, with 130
    when the user interrupted it; and nothing inside the try block ends the
    process on its own, so these three are the only exit codes. *)
Theorem main_exit_status (cfg : HapPairing.Config) (env : Env) (s : State) :
  let s0 := bind_output None (emit (Call "main") s) in
  let attempt :=
    (HapPairing.log "Waiting for server to stabilize..." "INFO" ;;
     time_sleep env 2 ;;
     HapPairing.run_all_tests cfg env) s0 in
  fst (HapPairing.main cfg env s) =
    Raise (SystemExit
             match fst attempt with
             | Ret true => 0
             | Ret false => 1
             | Raise KeyboardInterrupt => 130
             | Raise (Exc _ _) => 1
             | Raise (SystemExit code) => code
             end)
  /\ (forall code, fst attempt <> Raise (SystemExit code)).
Proof.
  intros s0 attempt. split.
  - subst attempt s0.
    unfold HapPairing.main, call, try_except, bind, HapPairing.log,
      print_stderr, do_emit, sys_exit, raise.
    cbv beta iota.
    destruct (time_sleep env 2 _) as [[u | e] s2];
      [| destruct e as [| c | c m]; reflexivity].
    destruct (HapPairing.run_all_tests cfg env s2) as [[[|] | e] s3];
      [reflexivity | reflexivity | destruct e as [| c | c m]; reflexivity].
  - intros code E.
    assert (H : emits any_event not_exit
                  (HapPairing.log "Waiting for server to stabilize..." "INFO" ;;
                   time_sleep env 2 ;;
                   HapPairing.run_all_tests cfg env)).
    { repeat first [emits_step | apply run_all_tests_never_exits]. }
    destruct (H s0) as [_ Hr]. fold attempt in Hr. rewrite E in Hr. exact Hr.
Qed.

(** The five ways a run of [test-hap-pairing.py] ends. *)
Example full_pass_exits_0 :
  let r := HapPairing.main HapPairing.config (Scenario.healthy "darwin") init in
  fst r = Raise (SystemExit 0)
  /\ last_line (snd r) = "[SUCCESS] ✅ All tests passed - HAP server should be pairable".
Proof. vm_compute. split; reflexivity. Qed.

Example degraded_pass_exits_0 :
  let env := Scenario.with_urlopen Scenario.unreachable_web (Scenario.healthy "darwin") in
  let r := HapPairing.main HapPairing.config env init in
  fst r = Raise (SystemExit 0)
  /\ last_line (snd r) = "[WARN] ⚠️  Critical tests passed but some issues detected".
Proof. vm_compute. split; reflexivity. Qed.

Example closed_port_exits_1 :
  let env := Scenario.with_connect_ex (Ok 111) (Scenario.healthy "darwin") in
  let r := HapPairing.main HapPairing.config env init in
  fst r = Raise (SystemExit 1)
  /\ last_line (snd r) = "[ERROR] ❌ Critical tests failed - HAP server is NOT pairable".
Proof. vm_compute. split; reflexivity. Qed.

Example interrupt_exits_130 :
  let env := Scenario.with_interrupt 3 (Scenario.healthy "darwin") in
  fst (HapPairing.main HapPairing.config env init) = Raise (SystemExit 130).
Proof. vm_compute. reflexivity. Qed.

Example escaped_fault_exits_1 :
  let env := Scenario.with_communicate Scenario.never_answers (Scenario.healthy "darwin") in
  let r := HapPairing.main HapPairing.config env init in
  fst r = Raise (SystemExit 1)
  /\ last_line (snd r) =
     "[ERROR] Unexpected error: cannot access local variable 'output' where it is not associated with a value".
Proof. vm_compute. split; reflexivity. Qed.

(** ** Runs that the user does not interrupt *)

Lemma interrupted_none (env : Env) :
  interrupt_at env = None -> forall n, interrupted env n = false.
Proof. intros H n. unfold interrupted. now rewrite H. Qed.

Lemma last_line_bind_output o s : last_line (bind_output o s) = last_line s.
Proof. reflexivity. Qed.

Lemma last_line_emit_stderr l s : last_line (emit (Stderr l) s) = l.
Proof.
  unfold last_line. cbn [trace emit]. rewrite stderr_of_app. cbn.
  apply last_app_cons.
Qed.

Lemma last_line_emit_close h s : last_line (emit (SockClose h) s) = last_line s.
Proof.
  unfold last_line. cbn [trace emit]. rewrite stderr_of_app. cbn. now rewrite app_nil_r.
Qed.

(** ** Evaluating a probe against given answers of the world *)

Ltac run_unfold :=
  unfold HapPairing.log, socket_socket, sock_settimeout, sock_connect_ex, sock_send,
    sock_recv, sock_close, urlopen, response_read_decode, time_sleep, sys_exit;
  unfold call, try_except, try_finally, bind, except_Exception, print_stderr;
  unfold do_emit, extern, ret, raise.

Ltac run_step H :=
  rewrite ?(interrupted_none _ H);
  cbn [of_out next_id clock trace output emit tick alloc bind_output fst snd Z.eqb Pos.eqb];
  repeat match goal with
         | Hx : ?o = _ |- context [?o] => rewrite Hx
         end;
  cbn [of_out next_id clock trace output emit tick alloc bind_output fst snd Z.eqb Pos.eqb].

Ltac run_probe H := run_unfold; repeat (progress (run_step H)).

Ltac read_last_line :=
  cbn [fst snd];
  rewrite ?last_line_bind_output, ?last_line_emit_close, ?last_line_emit_stderr; reflexivity.

(** * The probes of [test-hap-pairing.py] *)

(** C6.  In a run the user does not interrupt, [test_hap_tcp_connection] passes
    exactly when the socket is created, [connect_ex] answers 0, the request is
    sent and the reply contains the marker [HTTP]; a refused connection fails
    and logs the error code; a connected server that sends nothing (an empty
    read, or a read that times out) fails with a no-response line; and a reply
    without the marker fails with a not-HTTP line. *)
Theorem tcp_connection_probe (cfg : HapPairing.Config) (env : Env) (s : State) :
  interrupt_at env = None ->
  let h := next_id s in
  let r := HapPairing.test_hap_tcp_connection cfg env s in
  (fst r = Ret true <->
     os_socket env h = Ok tt /\ os_connect_ex env h = Ok 0
     /\ (exists n, os_send env h = Ok n)
     /\ (exists reply, os_recv env h = Ok reply /\ contains "HTTP" reply = true))
  /\ (forall code,
        os_socket env h = Ok tt -> os_connect_ex env h = Ok code -> code <> 0 ->
        fst r = Ret false
        /\ last_line (snd r) = "[ERROR] Cannot connect to HAP port: error code " ++ str_Z code)
  /\ (forall n,
        os_socket env h = Ok tt -> os_connect_ex env h = Ok 0 -> os_send env h = Ok n ->
        (os_recv env h = Ok "" ->
         fst r = Ret false /\ last_line (snd r) = "[ERROR] HAP server did not respond")
        /\ (forall msg, os_recv env h = Fault socket_timeout msg ->
            fst r = Ret false /\ last_line (snd r) = "[ERROR] HAP server connection timed out")
        /\ (forall reply, os_recv env h = Ok reply -> reply <> "" ->
            contains "HTTP" reply = false ->
            fst r = Ret false /\ last_line (snd r) = "[ERROR] HAP server response is not HTTP")).
Proof.
  intros H h r. subst h r. unfold HapPairing.test_hap_tcp_connection.
  split; [| split].
  - split.
    + destruct (os_socket env (next_id s)) as [[] | c m] eqn:Es;
        [| run_probe H; intros E; discriminate E].
      destruct (os_connect_ex env (next_id s)) as [code | c m] eqn:Ec;
        [| run_probe H; intros E; discriminate E].
      destruct (code =? 0) eqn:E0; [| run_probe H; intros E; discriminate E].
      apply Z.eqb_eq in E0. subst code.
      destruct (os_send env (next_id s)) as [n | c m] eqn:Esend;
        [| run_probe H; destruct c; intros E; discriminate E].
      destruct (os_recv env (next_id s)) as [reply | c m] eqn:Er;
        [| run_probe H; destruct c; intros E; discriminate E].
      destruct (contains "HTTP" reply) eqn:Eh.
      * intros _. repeat split; eauto.
      * run_probe H.
        destruct (negb (reply =? "")%string); cbn [negb]; rewrite ?Eh;
          intros E; discriminate E.
    + intros [Es [Ec [[n Esend] [reply [Er Eh]]]]].
      run_probe H.
      destruct reply as [| a reply]; [discriminate Eh |].
      cbn [String.eqb negb]. rewrite ?Eh. reflexivity.
  - intros code Es Ec Hne. apply Z.eqb_neq in Hne.
    run_probe H. split; [reflexivity | read_last_line].
  - intros n Es Ec Esend. split; [| split].
    + intros Er. run_probe H. cbn [String.eqb negb Z.eqb]. split; [reflexivity | read_last_line].
    + intros msg Er. run_probe H. cbn [Z.eqb]. split; [reflexivity | read_last_line].
    + intros reply Er Hne Eh. run_probe H. cbn [Z.eqb].
      destruct reply as [| a reply]; [congruence |].
      cbn [String.eqb negb]. rewrite ?Eh. split; [reflexivity | read_last_line].
Qed.

Lemma tcp_connection_probe_witness :
  fst (HapPairing.test_hap_tcp_connection HapPairing.config (Scenario.healthy "darwin") init)
  = Ret true.
Proof.
  apply (proj1 (tcp_connection_probe HapPairing.config (Scenario.healthy "darwin") init eq_refl)).
  cbn. repeat split; [exists 35; reflexivity | eexists; split; reflexivity].
Defined.

(** C3.  In a run the user does not interrupt, and with [urlopen] returning
    normally only for a 2xx status, [test_hap_discovery_endpoint] passes
    exactly when the HTTP status is 401 or 470.  A response that [urlopen]
    returns (a 2xx) fails and logs the status; any other [HTTPError] fails
    and logs its code; a [URLError] (refused, timed out) fails and logs the
    fault; any other fault fails and logs it. *)
Theorem discovery_probe (cfg : HapPairing.Config) (env : Env) (s : State) :
  let o := http_urlopen env ("http://localhost:" ++ str_Z (HapPairing.HAP_PORT cfg)
                             ++ "/accessories") in
  let r := HapPairing.test_hap_discovery_endpoint cfg env s in
  interrupt_at env = None ->
  (forall resp, o = Ok resp -> 200 <= getcode resp < 300) ->
  (fst r = Ret true <-> http_status o = Some 401 \/ http_status o = Some 470)
  /\ (forall resp, o = Ok resp ->
      fst r = Ret false
      /\ last_line (snd r) = "[WARN] Unexpected success on /accessories: " ++ str_Z (getcode resp))
  /\ (forall code msg, o = Fault (HTTPError code) msg -> code <> 401 -> code <> 470 ->
      fst r = Ret false
      /\ last_line (snd r) = "[ERROR] Unexpected HTTP error: " ++ str_Z code)
  /\ (forall msg, o = Fault URLError msg ->
      fst r = Ret false
      /\ last_line (snd r) = "[ERROR] Cannot connect to HAP server: " ++ msg)
  /\ (forall c msg, o = Fault c msg -> http_status o = None -> c <> URLError ->
      fst r = Ret false
      /\ last_line (snd r) = "[ERROR] HAP discovery test failed: " ++ msg).
Proof.
  intros o r H Hlib. subst r. unfold HapPairing.test_hap_discovery_endpoint.
  cbv zeta.
  assert (Eurl : http_urlopen env ("http://localhost:" ++ str_Z (HapPairing.HAP_PORT cfg)
                                   ++ "/accessories") = o) by reflexivity.
  clearbody o.
  split; [| split; [| split; [| split]]].
  - destruct o as [resp | c msg].
    + run_probe H.
      specialize (Hlib resp eq_refl). cbn [http_status].
      split; [intros E; discriminate E |].
      intros [E | E]; inversion E; lia.
    + run_probe H. destruct c; cbn [http_status existsb orb].
      all: try (split; [intros E; discriminate E | intros [E | E]; discriminate E]).
      destruct (code =? 401) eqn:E1; [apply Z.eqb_eq in E1; subst; cbn; tauto |].
      destruct (code =? 470) eqn:E2; [apply Z.eqb_eq in E2; subst; cbn; tauto |].
      cbn [orb]. apply Z.eqb_neq in E1, E2.
      split; [intros E; discriminate E | intros [E | E]; inversion E; congruence].
  - intros resp Eo. run_probe H.
    split; [reflexivity | read_last_line].
  - intros code msg Eo N1 N2. apply Z.eqb_neq in N1, N2.
    run_probe H. cbn [existsb]. rewrite N1, N2. cbn [orb].
    split; [reflexivity | read_last_line].
  - intros msg Eo. run_probe H.
    split; [reflexivity | read_last_line].
  - intros c msg Eo Hs Hc. rewrite Eo in Hs. run_probe H.
    destruct c; try discriminate Hs; try congruence;
      (split; [reflexivity | read_last_line]).
Qed.

Lemma discovery_probe_witness :
  fst (HapPairing.test_hap_discovery_endpoint HapPairing.config (Scenario.healthy "darwin") init)
  = Ret true.
Proof.
  apply (proj1 (discovery_probe HapPairing.config (Scenario.healthy "darwin") init eq_refl
                  ltac:(intros resp E; discriminate E))).
  right. reflexivity.
Defined.

(** X8.  For a payload that decodes to a JSON object, [test_web_api] passes exactly
    when the object has the key [qrCode] and one of [pairingCode],
    [setupCode], [pinCode]. *)
Lemma web_api_object_payload (cfg : HapPairing.Config) (env : Env) (s : State)
    (resp : http_response) (body : string) (members : list (string * json)) :
  interrupt_at env = None ->
  http_urlopen env ("http://localhost:" ++ str_Z (HapPairing.WEB_PORT cfg)
                    ++ "/api/homekit/pairing") = Ok resp ->
  read_decode resp = Ok body ->
  json_loads env body = Ok (JObj members) ->
  fst (HapPairing.test_web_api cfg env s)
  = Ret (has_key "qrCode" members
         && (has_key "pairingCode" members || has_key "setupCode" members
             || has_key "pinCode" members)).
Proof.
  intros H Eu Er Ej. unfold HapPairing.test_web_api. cbv zeta.
  run_probe H. unfold py_in. run_probe H. fold (has_key "qrCode" members)
    (has_key "pairingCode" members) (has_key "setupCode" members) (has_key "pinCode" members).
  destruct (has_key "qrCode" members); [| reflexivity].
  destruct (has_key "pairingCode" members); [reflexivity |].
  destruct (has_key "setupCode" members); [reflexivity |].
  destruct (has_key "pinCode" members); reflexivity.
Qed.

(** C4.  A payload that decodes to the JSON array [["qrCode", "pinCode"]] has
    no key at all, and [test_web_api] passes on it: [in] on a list compares
    elements. *)
Theorem web_api_accepts_array :
  fst (HapPairing.test_web_api HapPairing.config
         (Scenario.with_payload Scenario.array_payload (Scenario.healthy "linux")) init)
  = Ret true.
Proof. vm_compute. reflexivity. Qed.

(** C5.  When the first [communicate] of the browser times out, the handler
    of [TimeoutExpired] reads [output] before anything was assigned to it: the
    probe raises [UnboundLocalError] instead of returning, in both scripts. *)
Theorem mdns_probe_raises_on_timeout :
  let env := Scenario.with_communicate Scenario.never_answers (Scenario.healthy "darwin") in
  fst (HapPairing.test_mdns_advertisement env init)
  = Raise (Exc UnboundLocalError
             "cannot access local variable 'output' where it is not associated with a value")
  /\ fst (MdnsTest.test_mdns_with_dns_sd env init)
     = Raise (Exc UnboundLocalError
                "cannot access local variable 'output' where it is not associated with a value").
Proof. vm_compute. split; reflexivity. Qed.

(** [test_mdns_with_avahi] catches a timeout and a missing program only: any
    other fault of [subprocess.run] leaves it. *)
Example avahi_strategy_raises :
  fst (MdnsTest.test_mdns_with_avahi
         (Scenario.with_run Scenario.run_denied (Scenario.healthy "linux")) init)
  = Raise (Exc OtherException "[Errno 13] Permission denied: 'avahi-browse'").
Proof. vm_compute. reflexivity. Qed.

(** * Sockets *)

(** C7.  On a refused connection ([connect_ex] answers 111),
    [test_hap_tcp_connection] returns [False] and its socket is still open. *)
Theorem tcp_probe_leaves_socket_open :
  let env := Scenario.with_connect_ex (Ok 111) (Scenario.healthy "darwin") in
  let r := HapPairing.test_hap_tcp_connection HapPairing.config env init in
  fst r = Ret false /\ open_socks (trace (snd r)) = [0%nat].
Proof. vm_compute. split; reflexivity. Qed.

Lemma interrupted_other (env : Env) (n : nat) :
  interrupt_at env <> Some n -> interrupted env n = false.
Proof.
  unfold interrupted. destruct (interrupt_at env) as [k |]; [| reflexivity].
  intros Hk. apply Nat.eqb_neq. congruence.
Qed.

(** X10.  The sibling path: once [connect_ex] has answered 0, the [finally] clause
    closes the socket however the exchange ends, a Ctrl-C included. *)
Lemma tcp_probe_closes_after_connect (cfg : HapPairing.Config) (env : Env) :
  interrupt_at env <> Some 0%nat -> interrupt_at env <> Some 1%nat ->
  os_socket env 0%nat = Ok tt ->
  os_connect_ex env 0%nat = Ok 0 ->
  open_socks (trace (snd (HapPairing.test_hap_tcp_connection cfg env init))) = [].
Proof.
  intros H0 H1 Es Ec. apply interrupted_other in H0, H1.
  unfold HapPairing.test_hap_tcp_connection.
  run_unfold. cbn [of_out next_id clock trace output emit tick alloc bind_output fst snd init].
  rewrite H0, Es.
  cbn [of_out next_id clock trace output emit tick alloc bind_output fst snd init].
  rewrite H1, Ec.
  cbn [of_out next_id clock trace output emit tick alloc bind_output fst snd init Z.eqb].
  destruct (interrupted env 2); [reflexivity |].
  destruct (os_send env 0%nat) as [n | c m];
    cbn [of_out next_id clock trace output emit tick alloc bind_output fst snd init];
    [| destruct c; reflexivity].
  destruct (interrupted env 3); [reflexivity |].
  destruct (os_recv env 0%nat) as [reply | c m];
    cbn [of_out next_id clock trace output emit tick alloc bind_output fst snd init];
    [| destruct c; reflexivity].
  destruct (negb (reply =? "")%string); [| reflexivity].
  destruct (contains "HTTP" reply); reflexivity.
Qed.

(** X22.  The sibling probes close their socket as soon as [connect_ex] has
    answered, whatever the answer: [test_direct_port] of [test-mdns.py]. *)
Lemma test_direct_port_closes (env : Env) (code : Z) :
  interrupt_at env <> Some 0%nat -> interrupt_at env <> Some 1%nat ->
  os_socket env 0%nat = Ok tt -> os_connect_ex env 0%nat = Ok code ->
  open_socks (trace (snd (MdnsTest.test_direct_port env init))) = [].
Proof.
  intros H0 H1 Es Ec. apply interrupted_other in H0, H1.
  unfold MdnsTest.test_direct_port.
  run_unfold. cbn [of_out next_id clock trace output emit tick alloc bind_output fst snd init].
  rewrite H0, Es.
  cbn [of_out next_id clock trace output emit tick alloc bind_output fst snd init].
  rewrite H1, Ec.
  cbn [of_out next_id clock trace output emit tick alloc bind_output fst snd init].
  destruct (code =? 0); reflexivity.
Qed.

(** X2.  [test_port_open] closes its socket as soon as [connect_ex] has
    answered, whatever the answer. *)
Lemma test_port_open_closes (env : Env) (host : string) (port timeout code : Z) :
  interrupt_at env <> Some 0%nat -> interrupt_at env <> Some 1%nat ->
  os_socket env 0%nat = Ok tt -> os_connect_ex env 0%nat = Ok code ->
  open_socks (trace (snd (HapPairing.test_port_open env host port timeout init))) = [].
Proof.
  intros H0 H1 Es Ec. apply interrupted_other in H0, H1.
  unfold HapPairing.test_port_open.
  run_unfold. cbn [of_out next_id clock trace output emit tick alloc bind_output fst snd init].
  rewrite H0, Es.
  cbn [of_out next_id clock trace output emit tick alloc bind_output fst snd init].
  rewrite H1, Ec.
  reflexivity.
Qed.

(** * Calls *)

Lemma calls_of_quiet (l : list event) : Forall not_call l -> calls_of l = [].
Proof.
  induction 1 as [| e l He _ IH]; [reflexivity |].
  destruct e; cbn in *; [exact IH | contradiction | exact IH | exact IH | exact IH].
Qed.

Lemma calls_quiet {A} (Pex : exn -> Prop) (m : M A) :
  emits not_call Pex m -> calls_exactly [] m.
Proof.
  intros H s. destruct (H s) as [[l [El Fl]] _].
  rewrite El, calls_of_app, (calls_of_quiet l Fl). reflexivity.
Qed.

Lemma calls_call {A} (fn : string) (l : list string) (body : M A) :
  calls_exactly l body -> calls_exactly (fn :: l) (call fn body).
Proof.
  intros H s. unfold call.
  specialize (H (bind_output None (emit (Call fn) s))).
  destruct (body _) as [r s1]. cbn [snd trace bind_output emit] in *.
  rewrite H, calls_of_app. cbn. rewrite <- app_assoc. reflexivity.
Qed.

Lemma calls_bind_quiet {A B} (l : list string) (m : M A) (k : A -> M B) :
  calls_exactly [] m -> (forall a, calls_exactly l (k a)) ->
  returns m -> calls_exactly l (bind m k).
Proof.
  intros Hm Hk Hr s. unfold bind.
  specialize (Hm s). destruct (Hr s) as [a Ea].
  destruct (m s) as [r s1]. cbn [fst snd] in *. subst r.
  rewrite (Hk a s1), Hm, app_nil_r. reflexivity.
Qed.

Lemma calls_bind_one {A B} (fn : string) (l : list string) (m : M A) (k : A -> M B) :
  calls_exactly [fn] m -> (forall a, calls_exactly l (k a)) ->
  returns m -> calls_exactly (fn :: l) (bind m k).
Proof.
  intros Hm Hk Hr s. unfold bind.
  specialize (Hm s). destruct (Hr s) as [a Ea].
  destruct (m s) as [r s1]. cbn [fst snd] in *. subst r.
  rewrite (Hk a s1), Hm, <- app_assoc. reflexivity.
Qed.

Lemma calls_bind_last {A B} (l : list string) (m : M A) (k : A -> M B) :
  calls_exactly l m -> (forall a, calls_exactly [] (k a)) ->
  calls_exactly l (bind m k).
Proof.
  intros Hm Hk s. unfold bind.
  specialize (Hm s). destruct (m s) as [[a | e] s1]; cbn [fst snd] in *.
  - rewrite (Hk a s1), Hm, app_nil_r. reflexivity.
  - exact Hm.
Qed.

Lemma calls_try_except {A} (l : list string) (m : M A) (h : exn -> option (M A)) :
  calls_exactly l m -> (forall e k, h e = Some k -> calls_exactly [] k) ->
  calls_exactly l (try_except m h).
Proof.
  intros Hm Hh s. unfold try_except.
  specialize (Hm s). destruct (m s) as [[a | e] s1]; cbn [fst snd] in *; [exact Hm |].
  destruct (h e) as [k |] eqn:Ek; [| exact Hm].
  rewrite (Hh e k Ek s1), Hm, app_nil_r. reflexivity.
Qed.

Lemma returns_ret {A} (a : A) : returns (ret a).
Proof. intros s. exists a. reflexivity. Qed.

Lemma returns_log (message level : string) : returns (HapPairing.log message level).
Proof. intros s. exists tt. reflexivity. Qed.

Lemma returns_bind {A B} (m : M A) (k : A -> M B) :
  returns m -> (forall a, returns (k a)) -> returns (bind m k).
Proof.
  intros Hm Hk s. unfold bind. destruct (Hm s) as [a Ea].
  destruct (m s) as [r s1]. cbn [fst] in Ea. subst r. apply Hk.
Qed.

Lemma returns_call {A} (fn : string) (body : M A) : returns body -> returns (call fn body).
Proof.
  intros H s. unfold call.
  destruct (H (bind_output None (emit (Call fn) s))) as [a Ea].
  destruct (body _) as [r s1]. exists a. exact Ea.
Qed.

(** Each probe records its own call and nothing else, in every run. *)
Lemma test_hap_tcp_connection_calls (cfg : HapPairing.Config) (env : Env) :
  calls_exactly ["test_hap_tcp_connection"] (HapPairing.test_hap_tcp_connection cfg env).
Proof.
  unfold HapPairing.test_hap_tcp_connection.
  apply calls_call. eapply calls_quiet with (Pex := anything). emits_auto.
Qed.

Lemma test_hap_discovery_endpoint_calls (cfg : HapPairing.Config) (env : Env) :
  calls_exactly ["test_hap_discovery_endpoint"]
    (HapPairing.test_hap_discovery_endpoint cfg env).
Proof.
  unfold HapPairing.test_hap_discovery_endpoint.
  apply calls_call. eapply calls_quiet with (Pex := anything). emits_auto.
Qed.

Lemma test_web_api_calls (cfg : HapPairing.Config) (env : Env) :
  calls_exactly ["test_web_api"] (HapPairing.test_web_api cfg env).
Proof.
  unfold HapPairing.test_web_api.
  apply calls_call. eapply calls_quiet with (Pex := anything). emits_auto.
Qed.

Lemma test_mdns_advertisement_calls (env : Env) :
  calls_exactly ["test_mdns_advertisement"] (HapPairing.test_mdns_advertisement env).
Proof.
  unfold HapPairing.test_mdns_advertisement.
  apply calls_call. eapply calls_quiet with (Pex := anything).
  repeat first [emits_step | apply emits_resolve_bridge_lines; emits_side].
Qed.

(** In a run the user does not interrupt, the first three probes return. *)
Section Uninterrupted.

Variable env : Env.
Hypothesis Hrun : interrupt_at env = None.

Lemma returns_time_sleep (secs : Z) : returns (time_sleep env secs).
Proof.
  intros s. exists tt. unfold time_sleep, extern.
  rewrite (interrupted_none env Hrun). reflexivity.
Qed.

(** A body guarded by [except Exception] whose clause returns. *)
Lemma returns_guarded {A} (Pev : event -> Prop) (body : M A) (k : string -> M A) :
  emits Pev (raisable env) body -> (forall msg, returns (k msg)) ->
  returns (try_except body (except_Exception k)).
Proof.
  intros Hb Hk s. unfold try_except.
  destruct (Hb s) as [_ He]. destruct (body s) as [[a | e] s1]; cbn [fst] in He.
  - exists a. reflexivity.
  - destruct e as [| code | c msg]; cbn in He; [contradiction | contradiction |].
    cbn [except_Exception]. apply Hk.
Qed.

Ltac guarded_probe :=
  apply returns_call; eapply returns_guarded with (Pev := any_event);
  [ emits_auto
  | intros msg; apply returns_bind; [apply returns_log | intros _; apply returns_ret] ].

Lemma test_hap_tcp_connection_returns (cfg : HapPairing.Config) :
  returns (HapPairing.test_hap_tcp_connection cfg env).
Proof. unfold HapPairing.test_hap_tcp_connection. guarded_probe. Qed.

Lemma test_hap_discovery_endpoint_returns (cfg : HapPairing.Config) :
  returns (HapPairing.test_hap_discovery_endpoint cfg env).
Proof. unfold HapPairing.test_hap_discovery_endpoint. guarded_probe. Qed.

Lemma test_web_api_returns (cfg : HapPairing.Config) :
  returns (HapPairing.test_web_api cfg env).
Proof. unfold HapPairing.test_web_api. guarded_probe. Qed.

Ltac quiet := eapply calls_quiet with (Pex := raisable env).

Lemma run_all_tests_runs (cfg : HapPairing.Config) :
  calls_exactly ["run_all_tests"; "test_hap_tcp_connection"; "test_hap_discovery_endpoint";
                 "test_web_api"; "test_mdns_advertisement"]
    (HapPairing.run_all_tests cfg env).
Proof.
  unfold HapPairing.run_all_tests. apply calls_call.
  repeat (apply calls_bind_quiet; [quiet; emits_auto | intros _ | apply returns_log]).
  apply calls_bind_one;
    [apply test_hap_tcp_connection_calls | intros tcp | apply test_hap_tcp_connection_returns].
  cbv zeta.
  apply calls_bind_quiet; [quiet; emits_auto | intros _ | apply returns_log].
  apply calls_bind_one;
    [ apply test_hap_discovery_endpoint_calls | intros disc
    | apply test_hap_discovery_endpoint_returns ].
  apply calls_bind_quiet; [quiet; emits_auto | intros _ | apply returns_log].
  apply calls_bind_one; [apply test_web_api_calls | intros web | apply test_web_api_returns].
  apply calls_bind_quiet; [quiet; emits_auto | intros _ | apply returns_log].
  apply calls_bind_last; [apply test_mdns_advertisement_calls | intros mdns].
  quiet. apply emits_run_all_tests_summary; emits_side.
Qed.

End Uninterrupted.

(** ** Runs that a Ctrl-C may cut short *)

Lemma returns_then_unless_interrupted {A} (m : M A) :
  returns m -> returns_unless_interrupted m.
Proof. intros H s. destruct (H s) as [a E]. rewrite E. exact I. Qed.

Lemma time_sleep_unless_interrupted (env : Env) (secs : Z) :
  returns_unless_interrupted (time_sleep env secs).
Proof.
  intros s. unfold time_sleep, extern.
  destruct (interrupted env (clock s)); cbn; [reflexivity | exact I].
Qed.

Lemma call_unless_interrupted {A} (fn : string) (body : M A) :
  returns_unless_interrupted body -> returns_unless_interrupted (call fn body).
Proof.
  intros H s. unfold call.
  specialize (H (bind_output None (emit (Call fn) s))).
  destruct (body _) as [r s1]. exact H.
Qed.

(** A body guarded by [except Exception] whose clause returns: only a
    [KeyboardInterrupt] leaves it. *)
Lemma guarded_unless_interrupted {A} (Pev : event -> Prop) (body : M A) (k : string -> M A) :
  emits Pev not_exit body -> (forall msg, returns (k msg)) ->
  returns_unless_interrupted (try_except body (except_Exception k)).
Proof.
  intros Hb Hk s. unfold try_except.
  destruct (Hb s) as [_ He]. destruct (body s) as [[a | e] s1]; cbn [fst] in He.
  - exact I.
  - destruct e as [| code | c msg]; cbn in He; [reflexivity | contradiction |].
    cbn [except_Exception]. destruct (Hk msg s1) as [a E]. rewrite E. exact I.
Qed.

Ltac guarded_unless_interrupted :=
  apply call_unless_interrupted; eapply guarded_unless_interrupted with (Pev := any_event);
  [ emits_auto
  | intros msg; apply returns_bind; [apply returns_log | intros _; apply returns_ret] ].

Lemma test_hap_tcp_connection_unless_interrupted (cfg : HapPairing.Config) (env : Env) :
  returns_unless_interrupted (HapPairing.test_hap_tcp_connection cfg env).
Proof. unfold HapPairing.test_hap_tcp_connection. guarded_unless_interrupted. Qed.

Lemma test_hap_discovery_endpoint_unless_interrupted (cfg : HapPairing.Config) (env : Env) :
  returns_unless_interrupted (HapPairing.test_hap_discovery_endpoint cfg env).
Proof. unfold HapPairing.test_hap_discovery_endpoint. guarded_unless_interrupted. Qed.

Lemma test_web_api_unless_interrupted (cfg : HapPairing.Config) (env : Env) :
  returns_unless_interrupted (HapPairing.test_web_api cfg env).
Proof. unfold HapPairing.test_web_api. guarded_unless_interrupted. Qed.

Lemma calls_exactly_unless_interrupted {A} (l : list string) (m : M A) :
  calls_exactly l m -> calls_unless_interrupted l m.
Proof.
  intros H s. exists l, []. rewrite app_nil_r.
  split; [apply H | split; [reflexivity | intros _; reflexivity]].
Qed.

Lemma calls_unless_interrupted_call {A} (fn : string) (l : list string) (body : M A) :
  calls_unless_interrupted l body -> calls_unless_interrupted (fn :: l) (call fn body).
Proof.
  intros H s. unfold call.
  destruct (H (bind_output None (emit (Call fn) s))) as [l1 [l2 [E [L C]]]].
  destruct (body _) as [r s1]. cbn [fst snd trace bind_output emit] in *.
  exists (fn :: l1), l2. split; [| split; [rewrite L; reflexivity | exact C]].
  rewrite E, calls_of_app. cbn. rewrite <- app_assoc. reflexivity.
Qed.

Lemma calls_unless_interrupted_bind {A B} (l0 l : list string) (m : M A) (k : A -> M B) :
  calls_exactly l0 m -> returns_unless_interrupted m ->
  (forall a, calls_unless_interrupted l (k a)) ->
  calls_unless_interrupted (l0 ++ l) (bind m k).
Proof.
  intros Hm Hr Hk s. unfold bind. specialize (Hm s). specialize (Hr s).
  destruct (m s) as [[a | e] s1]; cbn [fst snd] in *.
  - destruct (Hk a s1) as [l1 [l2 [E [L C]]]]. exists (l0 ++ l1)%list, l2.
    split; [rewrite E, Hm, <- app_assoc; reflexivity |].
    split; [rewrite L, app_assoc; reflexivity | exact C].
  - subst e. exists l0, l.
    split; [exact Hm | split; [reflexivity | intros N; exfalso; apply N; exact I]].
Qed.

Lemma calls_unless_interrupted_quiet {A B} (l : list string) (m : M A) (k : A -> M B) :
  calls_exactly [] m -> returns_unless_interrupted m ->
  (forall a, calls_unless_interrupted l (k a)) ->
  calls_unless_interrupted l (bind m k).
Proof. exact (calls_unless_interrupted_bind [] l m k). Qed.

Lemma calls_unless_interrupted_one {A B} (fn : string) (l : list string)
    (m : M A) (k : A -> M B) :
  calls_exactly [fn] m -> returns_unless_interrupted m ->
  (forall a, calls_unless_interrupted l (k a)) ->
  calls_unless_interrupted (fn :: l) (bind m k).
Proof. exact (calls_unless_interrupted_bind [fn] l m k). Qed.

Lemma calls_unless_interrupted_tail {A B} (l : list string) (m : M A) (k : A -> M B) :
  calls_unless_interrupted l m -> (forall a, calls_exactly [] (k a)) ->
  calls_unless_interrupted l (bind m k).
Proof.
  intros Hm Hk s. unfold bind. destruct (Hm s) as [l1 [l2 [E [L C]]]].
  destruct (m s) as [[a | e] s1]; cbn [fst snd] in *.
  - exists l1, l2. split; [rewrite (Hk a s1), E, app_nil_r; reflexivity |].
    split; [exact L | intros _; apply C; intros F; exact F].
  - exists l1, l2. split; [exact E | split; [exact L | exact C]].
Qed.

Ltac silent := eapply calls_quiet with (Pex := anything); emits_auto.

Lemma run_all_tests_unless_interrupted (cfg : HapPairing.Config) (env : Env) :
  calls_unless_interrupted
    ["run_all_tests"; "test_hap_tcp_connection"; "test_hap_discovery_endpoint";
     "test_web_api"; "test_mdns_advertisement"]
    (HapPairing.run_all_tests cfg env).
Proof.
  unfold HapPairing.run_all_tests. apply calls_unless_interrupted_call.
  repeat (apply calls_unless_interrupted_quiet;
          [silent | apply returns_then_unless_interrupted, returns_log | intros _]).
  apply calls_unless_interrupted_one;
    [ apply test_hap_tcp_connection_calls
    | apply test_hap_tcp_connection_unless_interrupted | intros tcp; cbv zeta ].
  apply calls_unless_interrupted_quiet;
    [silent | apply returns_then_unless_interrupted, returns_log | intros _].
  apply calls_unless_interrupted_one;
    [ apply test_hap_discovery_endpoint_calls
    | apply test_hap_discovery_endpoint_unless_interrupted | intros disc ].
  apply calls_unless_interrupted_quiet;
    [silent | apply returns_then_unless_interrupted, returns_log | intros _].
  apply calls_unless_interrupted_one;
    [ apply test_web_api_calls
    | apply test_web_api_unless_interrupted | intros web ].
  apply calls_unless_interrupted_quiet;
    [silent | apply returns_then_unless_interrupted, returns_log | intros _].
  apply calls_exactly_unless_interrupted.
  apply calls_bind_last; [apply test_mdns_advertisement_calls | intros mdns].
  eapply calls_quiet with (Pex := anything).
  apply emits_run_all_tests_summary; emits_side.
Qed.

Lemma main_calls_uninterrupted (cfg : HapPairing.Config) (env : Env) :
  interrupt_at env = None ->
  calls_exactly
    ["main"; "run_all_tests"; "test_hap_tcp_connection"; "test_hap_discovery_endpoint";
     "test_web_api"; "test_mdns_advertisement"]
    (HapPairing.main cfg env).
Proof.
  intros Hrun.
  unfold HapPairing.main. apply calls_call. apply calls_try_except.
  - apply calls_bind_quiet;
      [eapply calls_quiet with (Pex := raisable env); emits_auto | intros _ | apply returns_log].
    apply calls_bind_quiet;
      [eapply calls_quiet with (Pex := raisable env); emits_auto | intros _
      | apply returns_time_sleep; exact Hrun].
    apply calls_bind_last; [apply run_all_tests_runs; exact Hrun | intros success].
    eapply calls_quiet with (Pex := anything). emits_auto.
  - intros e k E. eapply calls_quiet with (Pex := anything).
    destruct e as [| code | c msg]; cbn in E; try discriminate E;
      inversion E; subst; emits_auto.
Qed.


(** The claim C9 fails on a run the user interrupts: a Ctrl-C during the
    [connect_ex] of the first probe ends the run with status 130 after the
    TCP probe alone; the three other probes are never executed. *)
Lemma interrupted_run_stops_early :
  let env := Scenario.with_interrupt 2 (Scenario.healthy "darwin") in
  let run := HapPairing.main HapPairing.config env init in
  fst run = Raise (SystemExit 130)
  /\ calls_of (trace (snd run))
     = ["main"; "run_all_tests"; "test_hap_tcp_connection"].
Proof. vm_compute. split; reflexivity. Qed.

(** C9, amended.  Whatever the configuration (the retry count included), the
    calls a run of [main] records are an initial part of the sequence [main],
    [run_all_tests], TCP connection, HAP discovery endpoint, web API, mDNS
    advertisement, so no probe is executed twice or out of turn; and they are
    the whole sequence, each probe executed exactly once, unless [main] exits
    with status 130, that is, unless a Ctrl-C cut the run short; in
    particular in every world in which the user never presses Ctrl-C. *)
Theorem probes_run_once_in_order (cfg : HapPairing.Config) (env : Env) :
  let run := HapPairing.main cfg env init in
  let declared := ["main"; "run_all_tests"; "test_hap_tcp_connection";
                   "test_hap_discovery_endpoint"; "test_web_api";
                   "test_mdns_advertisement"] in
  (exists rest, declared = (calls_of (trace (snd run)) ++ rest)%list)
  /\ (fst run <> Raise (SystemExit 130) -> calls_of (trace (snd run)) = declared)
  /\ (interrupt_at env = None -> calls_of (trace (snd run)) = declared).
Proof.
  intros run declared.
  assert (Hall : exists rest,
             declared = (calls_of (trace (snd run)) ++ rest)%list
             /\ (fst run <> Raise (SystemExit 130) -> rest = [])).
  { subst run declared. unfold HapPairing.main.
    set (body := bind (HapPairing.log "Waiting for server to stabilize..." "INFO") _).
    assert (Hbody : calls_unless_interrupted
                      ["run_all_tests"; "test_hap_tcp_connection";
                       "test_hap_discovery_endpoint"; "test_web_api";
                       "test_mdns_advertisement"] body).
    { subst body.
      apply calls_unless_interrupted_quiet;
        [silent | apply returns_then_unless_interrupted, returns_log | intros _].
      apply calls_unless_interrupted_quiet;
        [silent | apply time_sleep_unless_interrupted | intros _].
      apply calls_unless_interrupted_tail;
        [apply run_all_tests_unless_interrupted | intros success; silent]. }
    unfold call, try_except.
    destruct (Hbody (bind_output None (emit (Call "main") init))) as [l1 [l2 [E [L C]]]].
    destruct (body _) as [[a | e] s1]; cbn [fst snd trace bind_output] in *.
    - exists l2. rewrite E, L. split; [reflexivity |].
      intros _. apply C. intros F; exact F.
    - destruct e as [| code | c msg].
      + exists l2. unfold bind, HapPairing.log, print_stderr, do_emit, sys_exit, raise.
        cbn [fst snd trace bind_output emit].
        rewrite calls_of_app, E, L. cbn [calls_of flat_map app]. rewrite app_nil_r.
        split; [reflexivity | intros N; exfalso; apply N; reflexivity].
      + exists l2. cbn [fst snd trace bind_output]. rewrite E, L.
        split; [reflexivity | intros _; apply C; intros F; exact F].
      + exists l2. unfold bind, HapPairing.log, print_stderr, do_emit, sys_exit, raise.
        cbn [fst snd trace bind_output emit].
        rewrite calls_of_app, E, L. cbn [calls_of flat_map app]. rewrite app_nil_r.
        split; [reflexivity | intros _; apply C; intros F; exact F]. }
  destruct Hall as [rest [E C]].
  split; [exists rest; exact E |].
  split.
  - intros N. rewrite (C N), app_nil_r in E. symmetry. exact E.
  - intros Hrun. exact (main_calls_uninterrupted cfg env Hrun init).
Qed.


Lemma probes_run_once_in_order_witness :
  calls_of (trace (snd (HapPairing.main HapPairing.config (Scenario.healthy "darwin") init)))
  = ["main"; "run_all_tests"; "test_hap_tcp_connection"; "test_hap_discovery_endpoint";
     "test_web_api"; "test_mdns_advertisement"].
Proof.
  apply (proj1 (proj2 (probes_run_once_in_order HapPairing.config
                         (Scenario.healthy "darwin")))).
  intros E. vm_compute in E. discriminate E.
Defined.

(** ** Interrupted runs *)

Lemma prefix_exactly {A} (l : list string) (m : M A) :
  calls_exactly l m -> calls_prefix l m.
Proof.
  intros H s. exists l, []. rewrite app_nil_r.
  split; [apply H | split; [reflexivity | intros; reflexivity]].
Qed.

Lemma prefix_bind {A B} (l1 l2 : list string) (m : M A) (k : A -> M B) :
  calls_prefix l1 m -> (forall a, calls_prefix l2 (k a)) ->
  calls_prefix (l1 ++ l2) (bind m k).
Proof.
  intros Hm Hk s. unfold bind.
  destruct (Hm s) as [p1 [q1 [E1 [L1 R1]]]].
  destruct (m s) as [[a | e] s1]; cbn [fst snd] in *.
  - specialize (R1 a eq_refl). subst q1. rewrite app_nil_r in L1. subst p1.
    destruct (Hk a s1) as [p2 [q2 [E2 [L2 R2]]]].
    exists (l1 ++ p2)%list, q2. rewrite E2, E1, L2, <- !app_assoc.
    split; [reflexivity | split; [reflexivity | exact R2]].
  - exists p1, (q1 ++ l2)%list. rewrite L1, <- app_assoc.
    split; [exact E1 | split; [reflexivity |]].
    intros a E. discriminate E.
Qed.

Lemma prefix_call {A} (fn : string) (l : list string) (body : M A) :
  calls_prefix l body -> calls_prefix (fn :: l) (call fn body).
Proof.
  intros H s. unfold call.
  destruct (H (bind_output None (emit (Call fn) s))) as [p [q [E [L R]]]].
  destruct (body _) as [r s1]. cbn [fst snd trace bind_output emit] in *.
  exists (fn :: p), q. rewrite E, calls_of_app, L. cbn. rewrite <- app_assoc.
  split; [reflexivity | split; [reflexivity | exact R]].
Qed.

(** A [try] whose clauses record no call and never return. *)
Lemma prefix_try_except {A} (l : list string) (m : M A) (h : exn -> option (M A)) :
  calls_prefix l m ->
  (forall e k, h e = Some k ->
     calls_exactly [] k /\ forall s a, fst (k s) <> Ret a) ->
  calls_prefix l (try_except m h).
Proof.
  intros Hm Hh s. unfold try_except.
  destruct (Hm s) as [p [q [E [L R]]]].
  destruct (m s) as [[a | e] s1]; cbn [fst snd] in *.
  - exists p, q. split; [exact E | split; [exact L | exact R]].
  - destruct (h e) as [k |] eqn:Ek.
    + destruct (Hh e k Ek) as [Hq Hn].
      exists p, q. rewrite (Hq s1), E, app_nil_r.
      split; [reflexivity | split; [exact L |]].
      intros a Ea. exfalso. exact (Hn s1 a Ea).
    + exists p, q. split; [exact E | split; [exact L |]].
      intros a Ea. discriminate Ea.
Qed.

Ltac prefix_quiet :=
  apply prefix_exactly; eapply calls_quiet with (Pex := anything); emits_auto.

Lemma run_all_tests_prefix (cfg : HapPairing.Config) (env : Env) :
  calls_prefix ["run_all_tests"; "test_hap_tcp_connection"; "test_hap_discovery_endpoint";
                "test_web_api"; "test_mdns_advertisement"]
    (HapPairing.run_all_tests cfg env).
Proof.
  unfold HapPairing.run_all_tests. apply prefix_call.
  repeat (apply (prefix_bind []); [prefix_quiet | intros _]).
  apply (prefix_bind ["test_hap_tcp_connection"]);
    [apply prefix_exactly, test_hap_tcp_connection_calls | intros tcp; cbv zeta].
  apply (prefix_bind []); [prefix_quiet | intros _].
  apply (prefix_bind ["test_hap_discovery_endpoint"]);
    [apply prefix_exactly, test_hap_discovery_endpoint_calls | intros disc].
  apply (prefix_bind []); [prefix_quiet | intros _].
  apply (prefix_bind ["test_web_api"]);
    [apply prefix_exactly, test_web_api_calls | intros web].
  apply (prefix_bind []); [prefix_quiet | intros _].
  apply (prefix_bind ["test_mdns_advertisement"] []);
    [apply prefix_exactly, test_mdns_advertisement_calls | intros mdns].
  apply prefix_exactly. eapply calls_quiet with (Pex := anything).
  apply emits_run_all_tests_summary; emits_side.
Qed.

(** X13.  In every run, interrupted or not, the calls [main] records are an initial
    part of the declared sequence: no probe runs twice or out of turn. *)
Lemma probes_never_rerun (cfg : HapPairing.Config) (env : Env) :
  exists done rest,
    calls_of (trace (snd (HapPairing.main cfg env init))) = done
    /\ ["main"; "run_all_tests"; "test_hap_tcp_connection"; "test_hap_discovery_endpoint";
        "test_web_api"; "test_mdns_advertisement"] = (done ++ rest)%list.
Proof.
  assert (H : calls_prefix
                ["main"; "run_all_tests"; "test_hap_tcp_connection";
                 "test_hap_discovery_endpoint"; "test_web_api"; "test_mdns_advertisement"]
                (HapPairing.main cfg env)).
  { unfold HapPairing.main. apply prefix_call. apply prefix_try_except.
    - apply (prefix_bind []); [prefix_quiet | intros _].
      apply (prefix_bind []); [prefix_quiet | intros _].
      apply (prefix_bind
               ["run_all_tests"; "test_hap_tcp_connection"; "test_hap_discovery_endpoint";
                "test_web_api"; "test_mdns_advertisement"] []);
        [apply run_all_tests_prefix | intros success].
      prefix_quiet.
    - intros e k E.
      destruct e as [| code | c msg]; cbn in E; try discriminate E; inversion E; subst.
      + split; [eapply calls_quiet with (Pex := anything); emits_auto |].
        intros s a Ea. discriminate Ea.
      + split; [eapply calls_quiet with (Pex := anything); emits_auto |].
        intros s a Ea. discriminate Ea. }
  destruct (H init) as [p [q [E [L _]]]]. exists p, q. split; [exact E | exact L].
Qed.

(** * [test-mdns.py]: the port gate and the choice of a browser *)

(** The claim C8 fails on [test-hap-pairing.py]: on a Linux host, where the
    browser to use is avahi-browse, [test_mdns_advertisement] starts dns-sd. *)
Lemma mdns_advertisement_ignores_platform :
  let env := Scenario.healthy "linux" in
  let t := trace (snd (HapPairing.test_mdns_advertisement env init)) in
  platform_tool env = "avahi-browse"
  /\ spawned_of t
     = [["dns-sd"; "-B"; "_hap._tcp"; "local."];
        ["dns-sd"; "-L"; "SmartThings Bridge 1A2B"; "_hap._tcp"; "local."]]
  /\ follows_platform env t = false.
Proof. vm_compute. repeat split; reflexivity. Qed.

(** ** The first command a function starts *)

Lemma spawned_of_quiet (l : list event) : Forall no_discovery l -> spawned_of l = [].
Proof.
  induction 1 as [| e l He _ IH]; [reflexivity |].
  destruct e; cbn in *; [exact IH | exact IH | contradiction | exact IH | exact IH].
Qed.

Lemma spawns_first_Popen (env : Env) (cmd : list string) : spawns_first cmd (Popen env cmd).
Proof.
  intros s. exists []. unfold Popen, extern.
  destruct (interrupted env _); [| destruct (os_popen env _ _)];
    cbn [of_out fst snd trace emit tick alloc];
    rewrite spawned_of_app; reflexivity.
Qed.

Lemma spawns_first_subprocess_run (env : Env) (cmd : list string) (t : Z) :
  spawns_first cmd (subprocess_run env cmd t).
Proof.
  intros s. exists []. unfold subprocess_run, extern.
  destruct (interrupted env _); [| destruct (os_run env _ _)];
    cbn [of_out fst snd trace emit tick alloc];
    rewrite spawned_of_app; reflexivity.
Qed.

Lemma spawns_first_bind {A B} (cmd : list string) (m : M A) (k : A -> M B) :
  spawns_first cmd m -> (forall a, emits any_event anything (k a)) ->
  spawns_first cmd (bind m k).
Proof.
  intros Hm Hk s. unfold bind. destruct (Hm s) as [more E].
  destruct (m s) as [[a | e] s1]; cbn [snd] in *; [| exists more; exact E].
  destruct (Hk a s1) as [[l [El _]] _]. destruct (k a s1) as [r s2]; cbn [snd] in *.
  exists (more ++ spawned_of l)%list.
  rewrite El, spawned_of_app, E, <- app_assoc. reflexivity.
Qed.

Lemma spawns_first_after_log {B} (cmd : list string) (message level : string) (k : unit -> M B) :
  spawns_first cmd (k tt) -> spawns_first cmd (bind (HapPairing.log message level) k).
Proof.
  intros Hk s. unfold bind, HapPairing.log, print_stderr, do_emit. cbn [fst snd].
  destruct (Hk (emit (Stderr ("[" ++ level ++ "] " ++ message)) s)) as [more E].
  exists more. rewrite E. cbn [trace emit]. rewrite spawned_of_app. cbn.
  rewrite app_nil_r. reflexivity.
Qed.

Lemma spawns_first_try_except {A} (cmd : list string) (m : M A) (h : exn -> option (M A)) :
  spawns_first cmd m ->
  (forall e k, h e = Some k -> emits any_event anything k) ->
  spawns_first cmd (try_except m h).
Proof.
  intros Hm Hh s. unfold try_except. destruct (Hm s) as [more E].
  destruct (m s) as [[a | e] s1]; cbn [snd] in *; [exists more; exact E |].
  destruct (h e) as [k |] eqn:Ek; [| exists more; exact E].
  destruct (Hh e k Ek s1) as [[l [El _]] _]. destruct (k s1) as [r s2]; cbn [snd] in *.
  exists (more ++ spawned_of l)%list.
  rewrite El, spawned_of_app, E, <- app_assoc. reflexivity.
Qed.

Lemma spawns_first_call {A} (cmd : list string) (fn : string) (body : M A) :
  spawns_first cmd body -> spawns_first cmd (call fn body).
Proof.
  intros Hb s. unfold call.
  destruct (Hb (bind_output None (emit (Call fn) s))) as [more E].
  destruct (body _) as [r s1]. cbn [snd trace bind_output emit] in *.
  exists more. rewrite E, spawned_of_app. cbn. rewrite app_nil_r. reflexivity.
Qed.

Ltac any_handler :=
  let e := fresh "e" in
  let k := fresh "k" in
  let E := fresh "E" in
  intros e k E;
  destruct e as [| ? | [] ?]; simpl in E; try discriminate E;
  inversion E; subst; clear E; emits_auto.

Lemma test_mdns_with_dns_sd_spawns_first (env : Env) :
  spawns_first dns_sd_browse (MdnsTest.test_mdns_with_dns_sd env).
Proof.
  unfold MdnsTest.test_mdns_with_dns_sd, dns_sd_browse.
  apply spawns_first_call, spawns_first_try_except; [| any_handler].
  apply spawns_first_bind; [apply spawns_first_Popen | intros proc; emits_auto].
Qed.

Lemma test_mdns_with_avahi_spawns_first (env : Env) :
  spawns_first avahi_browse (MdnsTest.test_mdns_with_avahi env).
Proof.
  unfold MdnsTest.test_mdns_with_avahi, avahi_browse.
  apply spawns_first_call, spawns_first_try_except; [| any_handler].
  apply spawns_first_bind; [apply spawns_first_subprocess_run | intros out; emits_auto].
Qed.

Lemma test_mdns_advertisement_spawns_first (env : Env) :
  spawns_first dns_sd_browse (HapPairing.test_mdns_advertisement env).
Proof.
  unfold HapPairing.test_mdns_advertisement, dns_sd_browse.
  apply spawns_first_call, spawns_first_try_except; [| any_handler].
  apply spawns_first_after_log.
  apply spawns_first_bind; [apply spawns_first_Popen | intros proc].
  repeat first [emits_step | apply emits_resolve_bridge_lines; emits_side].
Qed.

Lemma test_direct_port_calls (env : Env) :
  calls_exactly ["test_direct_port"] (MdnsTest.test_direct_port env).
Proof.
  unfold MdnsTest.test_direct_port.
  apply calls_call. eapply calls_quiet with (Pex := anything). emits_auto.
Qed.

Lemma test_mdns_with_dns_sd_calls (env : Env) :
  calls_exactly ["test_mdns_with_dns_sd"] (MdnsTest.test_mdns_with_dns_sd env).
Proof.
  unfold MdnsTest.test_mdns_with_dns_sd.
  apply calls_call. eapply calls_quiet with (Pex := anything). emits_auto.
Qed.

Lemma test_mdns_with_avahi_calls (env : Env) :
  calls_exactly ["test_mdns_with_avahi"] (MdnsTest.test_mdns_with_avahi env).
Proof.
  unfold MdnsTest.test_mdns_with_avahi.
  apply calls_call. eapply calls_quiet with (Pex := anything). emits_auto.
Qed.


(** C8, amended.  [test-mdns.py] selects its discovery strategy from the
    host platform at run time.  Every command its [main] starts is the browser
    of the platform (dns-sd on darwin, avahi-browse elsewhere).  Once the port
    check has returned [True], [main] calls exactly one strategy,
    [test_mdns_with_dns_sd] on darwin and [test_mdns_with_avahi] elsewhere,
    and the first command of the run is the browse of that strategy.  The
    boolean outcome is treated alike whichever strategy ran: [True] gives
    exit status 0, [False] gives 1, and status 0 is reached only on [True].
    [test_mdns_advertisement] of [test-hap-pairing.py] does not select: on
    every platform its first command is the dns-sd browse and every command
    it starts is dns-sd. *)
Theorem mdns_strategy_by_platform (env : Env) :
  emits (spawns_only (platform_tool env)) anything (MdnsTest.main env)
  /\ emits (spawns_only "dns-sd") anything (HapPairing.test_mdns_advertisement env)
  /\ (forall s,
        let s1 := emit (Stderr "[INFO] Testing mDNS advertisement for HAP server...")
                    (bind_output None (emit (Call "main") s)) in
        let port := MdnsTest.test_direct_port env s1 in
        let strategy := if String.eqb (sys_platform env) "darwin"
                        then MdnsTest.test_mdns_with_dns_sd env
                        else MdnsTest.test_mdns_with_avahi env in
        let outcome := fst (strategy (snd port)) in
        let run := MdnsTest.main env s in
        fst port = Ret true ->
        calls_of (trace (snd run))
        = (calls_of (trace s)
           ++ ["main"; "test_direct_port"; platform_strategy_name env])%list
        /\ (exists more,
              spawned_of (trace (snd run))
              = (spawned_of (trace s) ++ platform_browse env :: more)%list)
        /\ (outcome = Ret true -> fst run = Raise (SystemExit 0))
        /\ (outcome = Ret false -> fst run = Raise (SystemExit 1))
        /\ (exit_status (fst run) = 0 -> outcome = Ret true))
  /\ (forall s, exists more,
        spawned_of (trace (snd (HapPairing.test_mdns_advertisement env s)))
        = (spawned_of (trace s) ++ dns_sd_browse :: more)%list).
Proof.
  split; [| split; [| split]].
  - unfold MdnsTest.main, platform_tool.
    destruct (String.eqb (sys_platform env) "darwin").
    + repeat first
        [ emits_step
        | apply emits_test_direct_port; emits_side
        | apply emits_test_mdns_with_dns_sd; emits_side ].
    + repeat first
        [ emits_step
        | apply emits_test_direct_port; emits_side
        | apply emits_test_mdns_with_avahi; emits_side ].
  - apply emits_test_mdns_advertisement; emits_side.
  - intros s s1 port strategy outcome run Eport.
    assert (Hcalls : calls_exactly [platform_strategy_name env] strategy).
    { subst strategy. unfold platform_strategy_name.
      destruct (String.eqb (sys_platform env) "darwin");
        [apply test_mdns_with_dns_sd_calls | apply test_mdns_with_avahi_calls]. }
    assert (Hfirst : spawns_first (platform_browse env) strategy).
    { subst strategy. unfold platform_browse.
      destruct (String.eqb (sys_platform env) "darwin");
        [apply test_mdns_with_dns_sd_spawns_first | apply test_mdns_with_avahi_spawns_first]. }
    assert (Hexit : emits any_event not_exit strategy).
    { subst strategy. destruct (String.eqb (sys_platform env) "darwin").
      - apply emits_test_mdns_with_dns_sd; emits_side.
      - apply emits_test_mdns_with_avahi; emits_side. }
    assert (Hport : emits no_discovery not_exit (MdnsTest.test_direct_port env)).
    { apply emits_test_direct_port; emits_side. cbn. split; discriminate. }
    pose proof (test_direct_port_calls env s1) as Cport.
    destruct (Hport s1) as [[l [El Fl]] _].
    fold port in Cport, El.
    assert (Erun : run =
       match strategy (snd port) with
       | (Ret true, s3) =>
           (Raise (SystemExit 0),
            bind_output (output s)
              (emit (Stderr "[SUCCESS] ✅ HAP server is properly advertised via mDNS") s3))
       | (Ret false, s3) =>
           (Raise (SystemExit 1),
            bind_output (output s)
              (emit (Stderr "[FAIL] ❌ HAP server is NOT properly advertised via mDNS") s3))
       | (Raise e, s3) => (Raise e, bind_output (output s) s3)
       end).
    { subst run outcome port s1.
      unfold MdnsTest.main, call, bind, print_stderr, do_emit, sys_exit, raise.
      cbv beta iota. fold strategy.
      destruct (MdnsTest.test_direct_port env _) as [r s2]. cbn [fst snd] in *. subst r.
      cbn [negb]. destruct (strategy s2) as [[[|] | e] s3]; reflexivity. }
    specialize (Hcalls (snd port)). destruct (Hfirst (snd port)) as [more Hsp].
    destruct (Hexit (snd port)) as [_ Hne].
    assert (Es1 : calls_of (trace (snd port))
                  = (calls_of (trace s) ++ ["main"; "test_direct_port"])%list).
    { rewrite Cport. subst s1. cbn [trace emit bind_output].
      rewrite <- app_assoc, calls_of_app. cbn. rewrite <- app_assoc. reflexivity. }
    assert (Es2 : spawned_of (trace (snd port)) = spawned_of (trace s)).
    { rewrite El, spawned_of_app, (spawned_of_quiet l Fl), app_nil_r.
      subst s1. cbn [trace emit bind_output].
      rewrite <- app_assoc, spawned_of_app. cbn. rewrite app_nil_r. reflexivity. }
    subst outcome. rewrite Erun. clear Erun.
    destruct (strategy (snd port)) as [[[|] | e] s3]; cbn [fst snd trace bind_output emit] in *.
    + split; [| split; [| split; [| split]]].
      * rewrite calls_of_app, Hcalls, Es1. cbn. rewrite app_nil_r, <- app_assoc. reflexivity.
      * exists more. rewrite spawned_of_app, Hsp, Es2. cbn. rewrite app_nil_r. reflexivity.
      * reflexivity.
      * intros E; discriminate E.
      * reflexivity.
    + split; [| split; [| split; [| split]]].
      * rewrite calls_of_app, Hcalls, Es1. cbn. rewrite app_nil_r, <- app_assoc. reflexivity.
      * exists more. rewrite spawned_of_app, Hsp, Es2. cbn. rewrite app_nil_r. reflexivity.
      * intros E; discriminate E.
      * reflexivity.
      * intros E; discriminate E.
    + split; [| split; [| split; [| split]]].
      * rewrite Hcalls, Es1, <- app_assoc. reflexivity.
      * exists more. rewrite Hsp, Es2. reflexivity.
      * intros E; discriminate E.
      * intros E; discriminate E.
      * intros E. destruct e as [| code | c msg]; cbn in E, Hne;
          [discriminate E | contradiction | discriminate E].
  - apply test_mdns_advertisement_spawns_first.
Qed.

(** Both strategies do run once the port check has passed. *)
Example linux_host_starts_avahi :
  spawned_of (trace (snd (MdnsTest.main (Scenario.healthy "linux") init)))
  = [["avahi-browse"; "-ptr"; "_hap._tcp"]].
Proof. vm_compute. reflexivity. Qed.

Example darwin_host_starts_dns_sd :
  spawned_of (trace (snd (MdnsTest.main (Scenario.healthy "darwin") init)))
  = [["dns-sd"; "-B"; "_hap._tcp"; "local."];
     ["dns-sd"; "-L"; "SmartThings Bridge"; "_hap._tcp"; "local."]].
Proof. vm_compute. reflexivity. Qed.

(** C10.  In [test-mdns.py], when [test_direct_port] returns [False], [main]
    exits with status 1; unless [test_direct_port] returned [True], the run
    starts no command and calls no discovery strategy; and an exit with
    status 0 means that [test_direct_port] returned [True] and that the
    strategy of the platform then returned [True]. *)
Theorem mdns_main_port_gate (env : Env) (s : State) :
  let s1 := emit (Stderr "[INFO] Testing mDNS advertisement for HAP server...")
              (bind_output None (emit (Call "main") s)) in
  let port := MdnsTest.test_direct_port env s1 in
  let run := MdnsTest.main env s in
  (fst port = Ret false -> fst run = Raise (SystemExit 1))
  /\ (fst port <> Ret true ->
      exists l, trace (snd run) = (trace s ++ l)%list /\ Forall no_discovery l)
  /\ (exit_status (fst run) = 0 ->
      fst port = Ret true
      /\ fst ((if String.eqb (sys_platform env) "darwin"
               then MdnsTest.test_mdns_with_dns_sd env
               else MdnsTest.test_mdns_with_avahi env) (snd port)) = Ret true).
Proof.
  intros s1 port run.
  set (strategy := if String.eqb (sys_platform env) "darwin"
                   then MdnsTest.test_mdns_with_dns_sd env
                   else MdnsTest.test_mdns_with_avahi env).
  assert (Hport : emits no_discovery not_exit (MdnsTest.test_direct_port env)).
  { apply emits_test_direct_port; emits_side. cbn. split; discriminate. }
  assert (Hs : emits any_event not_exit strategy).
  { subst strategy. destruct (String.eqb (sys_platform env) "darwin").
    - apply emits_test_mdns_with_dns_sd; emits_side.
    - apply emits_test_mdns_with_avahi; emits_side. }
  destruct (Hport s1) as [[l [El Fl]] Hr]. fold port in El, Hr.
  assert (Hpre : forall s2 l2,
             trace s2 = (trace s1 ++ l)%list -> Forall no_discovery l2 ->
             exists l', (trace s2 ++ l2)%list = (trace s ++ l')%list /\ Forall no_discovery l').
  { intros s2 l2 E2 F2.
    exists (Call "main" :: Stderr "[INFO] Testing mDNS advertisement for HAP server..."
            :: l ++ l2)%list.
    rewrite E2. subst s1. cbn [trace bind_output emit].
    rewrite <- !app_assoc. split; [reflexivity |].
    repeat constructor; try discriminate.
    apply Forall_app. split; assumption. }
  assert (Erun : run =
     match port with
     | (Ret true, s2) =>
        match strategy s2 with
        | (Ret true, s3) =>
            (Raise (SystemExit 0),
             bind_output (output s)
               (emit (Stderr "[SUCCESS] ✅ HAP server is properly advertised via mDNS") s3))
        | (Ret false, s3) =>
            (Raise (SystemExit 1),
             bind_output (output s)
               (emit (Stderr "[FAIL] ❌ HAP server is NOT properly advertised via mDNS") s3))
        | (Raise e, s3) => (Raise e, bind_output (output s) s3)
        end
     | (Ret false, s2) =>
         (Raise (SystemExit 1),
          bind_output (output s)
            (emit (Stderr "[FAIL] HAP server is not running on port 51826") s2))
     | (Raise e, s2) => (Raise e, bind_output (output s) s2)
     end).
  { subst run port s1. unfold MdnsTest.main, call, bind, print_stderr, do_emit, sys_exit, raise.
    cbv beta iota. fold strategy.
    destruct (MdnsTest.test_direct_port env _) as [[[|] | e] s2]; cbn [negb]; try reflexivity.
    destruct (strategy s2) as [[[|] | e] s3]; reflexivity. }
  rewrite Erun. clear Erun.
  destruct port as [[[|] | e] s2]; cbn [fst snd] in *.
  - split; [intros E; discriminate E |]. split; [intros E; congruence |].
    intros E. split; [reflexivity |].
    destruct (Hs s2) as [_ Hr2].
    destruct (strategy s2) as [[[|] | e] s3]; [reflexivity | discriminate E |].
    cbn [fst] in E, Hr2. destruct e as [| code | c msg]; cbn in E, Hr2;
      [discriminate E | contradiction | discriminate E].
  - split; [reflexivity |]. split; [| intros E; discriminate E].
    intros _. cbn [trace bind_output emit]. apply Hpre; [exact El | repeat constructor].
  - split; [intros E; discriminate E |]. split.
    + intros _. cbn [trace bind_output]. rewrite <- (app_nil_r (trace s2)).
      apply Hpre; [exact El | constructor].
    + intros E. destruct e as [| code | c msg]; cbn in E, Hr;
        [discriminate E | contradiction | discriminate E].
Qed.

Lemma mdns_main_port_gate_witness :
  fst (MdnsTest.main (Scenario.with_connect_ex (Ok 111) (Scenario.healthy "darwin")) init)
  = Raise (SystemExit 1).
Proof.
  apply (proj1 (mdns_main_port_gate
                  (Scenario.with_connect_ex (Ok 111) (Scenario.healthy "darwin")) init)).
  reflexivity.
Defined.

(** * The port checks and the avahi strategy *)

(** Reads the stderr lines or the commands off a state built by the
    primitives on top of a given one. *)
Ltac read_trace :=
  cbn [fst snd trace emit bind_output tick alloc];
  rewrite <- ?app_assoc; cbn [app];
  rewrite ?stderr_of_app, ?spawned_of_app;
  cbn [stderr_of spawned_of flat_map app]; rewrite ?app_nil_r; reflexivity.

(** X1.  In a run the user does not interrupt, [test_port_open] returns [True]
    exactly when the socket is created and [connect_ex] answers 0.  Any
    other answer of [connect_ex] gives [False] and writes nothing to stderr;
    a fault of [socket] or [connect_ex] gives [False] and the line
    "Port test failed for host:port - fault" at level ERROR. *)
Theorem test_port_open_spec (env : Env) (host : string) (port timeout : Z) (s : State) :
  interrupt_at env = None ->
  let h := next_id s in
  let r := HapPairing.test_port_open env host port timeout s in
  (fst r = Ret true <-> os_socket env h = Ok tt /\ os_connect_ex env h = Ok 0)
  /\ (forall code, os_socket env h = Ok tt -> os_connect_ex env h = Ok code -> code <> 0 ->
      fst r = Ret false /\ stderr_of (trace (snd r)) = stderr_of (trace s))
  /\ (forall c msg,
        os_socket env h = Fault c msg
        \/ (os_socket env h = Ok tt /\ os_connect_ex env h = Fault c msg) ->
        fst r = Ret false
        /\ last_line (snd r)
           = "[ERROR] Port test failed for " ++ host ++ ":" ++ str_Z port ++ " - " ++ msg).
Proof.
  intros H h r. subst h r. unfold HapPairing.test_port_open.
  split; [| split].
  - split.
    + destruct (os_socket env (next_id s)) as [[] | c m] eqn:Es;
        [| run_probe H; intros E; discriminate E].
      destruct (os_connect_ex env (next_id s)) as [code | c m] eqn:Ec;
        [| run_probe H; intros E; discriminate E].
      run_probe H. destruct (code =? 0) eqn:E0; [| intros E; discriminate E].
      apply Z.eqb_eq in E0. subst code. intros _. split; reflexivity.
    + intros [Es Ec]. run_probe H. reflexivity.
  - intros code Es Ec Hne. apply Z.eqb_neq in Hne. run_probe H.
    split; [reflexivity | read_trace].
  - intros c msg [Es | [Es Ec]]; run_probe H; (split; [reflexivity | read_last_line]).
Qed.

Lemma test_port_open_spec_witness :
  fst (HapPairing.test_port_open (Scenario.healthy "darwin") "localhost" 51826 5 init)
  = Ret true.
Proof.
  apply (proj1 (test_port_open_spec (Scenario.healthy "darwin") "localhost" 51826 5 init
                  eq_refl)).
  split; reflexivity.
Defined.

(** X21.  In a run the user does not interrupt, [test_direct_port] of
    [test-mdns.py] returns [True] exactly when the socket is created and
    [connect_ex] answers 0, and then reports that the port is listening; any
    other answer gives [False] with the line "HAP port 51826 is not
    accessible", a fault gives [False] with "Port test failed: fault". *)
Theorem test_direct_port_spec (env : Env) (s : State) :
  interrupt_at env = None ->
  let h := next_id s in
  let r := MdnsTest.test_direct_port env s in
  (fst r = Ret true <-> os_socket env h = Ok tt /\ os_connect_ex env h = Ok 0)
  /\ (os_socket env h = Ok tt -> os_connect_ex env h = Ok 0 ->
      last_line (snd r) = "[INFO] HAP port 51826 is listening")
  /\ (forall code, os_socket env h = Ok tt -> os_connect_ex env h = Ok code -> code <> 0 ->
      fst r = Ret false /\ last_line (snd r) = "[FAIL] HAP port 51826 is not accessible")
  /\ (forall c msg,
        os_socket env h = Fault c msg
        \/ (os_socket env h = Ok tt /\ os_connect_ex env h = Fault c msg) ->
        fst r = Ret false /\ last_line (snd r) = "[ERROR] Port test failed: " ++ msg).
Proof.
  intros H h r. subst h r. unfold MdnsTest.test_direct_port.
  split; [| split; [| split]].
  - split.
    + destruct (os_socket env (next_id s)) as [[] | c m] eqn:Es;
        [| run_probe H; intros E; discriminate E].
      destruct (os_connect_ex env (next_id s)) as [code | c m] eqn:Ec;
        [| run_probe H; intros E; discriminate E].
      run_probe H. destruct (code =? 0) eqn:E0; [| intros E; discriminate E].
      apply Z.eqb_eq in E0. subst code. intros _. split; reflexivity.
    + intros [Es Ec]. run_probe H. reflexivity.
  - intros Es Ec. run_probe H. read_last_line.
  - intros code Es Ec Hne. apply Z.eqb_neq in Hne. run_probe H.
    split; [reflexivity | read_last_line].
  - intros c msg [Es | [Es Ec]]; run_probe H; (split; [reflexivity | read_last_line]).
Qed.

Lemma test_direct_port_spec_witness :
  fst (MdnsTest.test_direct_port (Scenario.healthy "linux") init) = Ret true.
Proof.
  apply (proj1 (test_direct_port_spec (Scenario.healthy "linux") init eq_refl)).
  split; reflexivity.
Defined.

(** X17.  In a run the user does not interrupt, [test_mdns_with_avahi] starts
    exactly one command, [avahi-browse -ptr _hap._tcp], and writes nothing to
    stderr.  When the command answers, the result is whether its output
    contains "SmartThings"; [TimeoutExpired] and [FileNotFoundError] give
    [False]; any other fault is not caught and leaves the function. *)
Theorem test_mdns_with_avahi_spec (env : Env) (s : State) :
  interrupt_at env = None ->
  let o := os_run env (next_id s) avahi_browse in
  let r := MdnsTest.test_mdns_with_avahi env s in
  (forall out, o = Ok out -> fst r = Ret (contains "SmartThings" out))
  /\ (forall msg, o = Fault TimeoutExpired msg \/ o = Fault FileNotFoundError msg ->
      fst r = Ret false)
  /\ (forall c msg, o = Fault c msg -> c <> TimeoutExpired -> c <> FileNotFoundError ->
      fst r = Raise (Exc c msg))
  /\ spawned_of (trace (snd r)) = (spawned_of (trace s) ++ [avahi_browse])%list
  /\ stderr_of (trace (snd r)) = stderr_of (trace s).
Proof.
  intros H o r. subst r. unfold MdnsTest.test_mdns_with_avahi, subprocess_run.
  assert (Eo : os_run env (next_id s) avahi_browse = o) by reflexivity. clearbody o.
  unfold avahi_browse in *.
  run_probe H.
  split; [| split; [| split; [| split]]].
  - intros out E. rewrite E. cbn [of_out fst].
    destruct (contains "SmartThings" out); reflexivity.
  - intros msg [E | E]; rewrite E; reflexivity.
  - intros c msg E Hc1 Hc2. rewrite E. destruct c; try congruence; reflexivity.
  - destruct o as [out | c msg]; cbn [of_out];
      [destruct (contains "SmartThings" out) | destruct c]; read_trace.
  - destruct o as [out | c msg]; cbn [of_out];
      [destruct (contains "SmartThings" out) | destruct c]; read_trace.
Qed.

Lemma test_mdns_with_avahi_spec_witness :
  fst (MdnsTest.test_mdns_with_avahi (Scenario.healthy "linux") init) = Ret true.
Proof.
  apply (proj1 (test_mdns_with_avahi_spec (Scenario.healthy "linux") init eq_refl)
           "=;eth0;IPv4;SmartThings Bridge 1A2B;_hap._tcp;local").
  reflexivity.
Defined.

(** * The dns-sd strategy and the mDNS advertisement probe *)

Ltac run_unfold' :=
  unfold Popen, proc_terminate, proc_communicate, set_output, get_output; run_unfold.

Ltac run_step' H :=
  rewrite ?(interrupted_none _ H);
  cbn [of_out next_id clock trace output emit tick alloc bind_output fst snd Z.eqb Pos.eqb
       negb andb orb];
  repeat match goal with
         | Hx : ?o = _ |- context [?o] => rewrite Hx
         end;
  cbn [of_out next_id clock trace output emit tick alloc bind_output fst snd Z.eqb Pos.eqb
       negb andb orb].

Ltac run_script H := run_unfold'; repeat (progress (run_step' H)).

(** The same, with every [Popen] succeeding. *)
Ltac run_spawning H Hp :=
  run_unfold'; repeat (progress (rewrite ?Hp; run_step' H)).

Lemma contains_nonempty (needle hay : string) :
  needle <> "" -> contains needle hay = true -> (hay =? "")%string = false.
Proof.
  intros Hn Hc. destruct hay; [| reflexivity].
  destruct needle; [congruence | discriminate Hc].
Qed.

(** X18.  In a run the user does not interrupt and in which the three dns-sd
    commands start and answer, [test_mdns_with_dns_sd] returns [True] exactly
    when the browse output contains "_hap._tcp" and either the lookup output
    contains "can be reached at" together with ":51826" or "51826.local", or
    the SRV query output contains "51826". *)
Theorem test_mdns_with_dns_sd_result (env : Env) (s : State)
    (out1 err1 out2 err2 out3 err3 : string) :
  interrupt_at env = None ->
  (forall pid cmd, os_popen env pid cmd = Ok tt) ->
  let h := next_id s in
  os_communicate env h dns_sd_browse = Ok (out1, err1) ->
  os_communicate env (S h) dns_sd_lookup = Ok (out2, err2) ->
  os_communicate env (S (S h)) dns_sd_query = Ok (out3, err3) ->
  fst (MdnsTest.test_mdns_with_dns_sd env s)
  = Ret (contains "_hap._tcp" out1
         && (contains "can be reached at" out2
             && (contains ":51826" out2 || contains "51826.local" out2)
             || contains "51826" out3)).
Proof.
  intros H Hp h E1 E2 E3. subst h. unfold dns_sd_browse, dns_sd_lookup, dns_sd_query, dns_sd_resolve in *.
  unfold MdnsTest.test_mdns_with_dns_sd.
  run_spawning H Hp.
  destruct (contains "_hap._tcp" out1); run_spawning H Hp; [| reflexivity].
  destruct (contains "can be reached at" out2); run_spawning H Hp.
  - destruct (contains ":51826" out2); run_spawning H Hp; [reflexivity |].
    destruct (contains "51826.local" out2); run_spawning H Hp; [reflexivity |].
    destruct (contains "51826" out3); reflexivity.
  - destruct (contains "51826" out3); reflexivity.
Qed.

Lemma test_mdns_with_dns_sd_result_witness :
  fst (MdnsTest.test_mdns_with_dns_sd (Scenario.healthy "darwin") init) = Ret true.
Proof.
  apply (test_mdns_with_dns_sd_result (Scenario.healthy "darwin") init
           Scenario.browse_reply "" Scenario.resolve_reply "" Scenario.resolve_reply "");
    [reflexivity | intros pid cmd; reflexivity | reflexivity | reflexivity | reflexivity].
Defined.

(** X19.  When the browse output lacks "_hap._tcp", [test_mdns_with_dns_sd]
    returns [False], its last line is "[FAIL] No HAP services found via
    mDNS", and the browse is the only command it has started. *)
Theorem test_mdns_with_dns_sd_no_service (env : Env) (s : State) (out1 err1 : string) :
  interrupt_at env = None ->
  os_popen env (next_id s) dns_sd_browse = Ok tt ->
  os_communicate env (next_id s) dns_sd_browse = Ok (out1, err1) ->
  contains "_hap._tcp" out1 = false ->
  let r := MdnsTest.test_mdns_with_dns_sd env s in
  fst r = Ret false
  /\ last_line (snd r) = "[FAIL] No HAP services found via mDNS"
  /\ spawned_of (trace (snd r)) = (spawned_of (trace s) ++ [dns_sd_browse])%list.
Proof.
  intros H Hp E1 Hc r. subst r. unfold dns_sd_browse in *.
  unfold MdnsTest.test_mdns_with_dns_sd. run_script H.
  split; [reflexivity | split; [read_last_line | read_trace]].
Qed.

Lemma test_mdns_with_dns_sd_no_service_witness :
  fst (MdnsTest.test_mdns_with_dns_sd
         (Scenario.with_communicate Scenario.silent (Scenario.healthy "darwin")) init)
  = Ret false.
Proof.
  apply (test_mdns_with_dns_sd_no_service
           (Scenario.with_communicate Scenario.silent (Scenario.healthy "darwin")) init "" "");
    reflexivity.
Defined.

(** X20.  When a later [communicate] of [test_mdns_with_dns_sd] times out, the
    handler judges the output read last: a timeout of the lookup gives
    whether the browse output contains "SmartThings" or "51826"; a timeout of
    the SRV query gives that test on the lookup output, [False] when it is
    empty. *)
Theorem test_mdns_with_dns_sd_timeout (env : Env) (s : State)
    (out1 err1 msg : string) :
  interrupt_at env = None ->
  (forall pid cmd, os_popen env pid cmd = Ok tt) ->
  let h := next_id s in
  os_communicate env h dns_sd_browse = Ok (out1, err1) ->
  contains "_hap._tcp" out1 = true ->
  (os_communicate env (S h) dns_sd_lookup = Fault TimeoutExpired msg ->
   fst (MdnsTest.test_mdns_with_dns_sd env s)
   = Ret (contains "SmartThings" out1 || contains "51826" out1))
  /\ (forall out2 err2,
        os_communicate env (S h) dns_sd_lookup = Ok (out2, err2) ->
        contains "can be reached at" out2
        && (contains ":51826" out2 || contains "51826.local" out2) = false ->
        os_communicate env (S (S h)) dns_sd_query = Fault TimeoutExpired msg ->
        fst (MdnsTest.test_mdns_with_dns_sd env s)
        = Ret (negb (out2 =? "")%string
               && (contains "SmartThings" out2 || contains "51826" out2))).
Proof.
  intros H Hp h E1 Hc. subst h. unfold dns_sd_browse, dns_sd_lookup, dns_sd_query, dns_sd_resolve in *.
  unfold MdnsTest.test_mdns_with_dns_sd.
  pose proof (contains_nonempty "_hap._tcp" out1 ltac:(discriminate) Hc) as Hne.
  split.
  - intros E2. run_spawning H Hp.
    destruct (contains "SmartThings" out1); [reflexivity |].
    destruct (contains "51826" out1); reflexivity.
  - intros out2 err2 E2 Hno E3. run_spawning H Hp.
    destruct (out2 =? "")%string; cbn [negb andb]; [reflexivity |].
    destruct (contains "SmartThings" out2); [reflexivity |].
    destruct (contains "51826" out2); reflexivity.
Qed.

Lemma test_mdns_with_dns_sd_timeout_witness :
  fst (MdnsTest.test_mdns_with_dns_sd
         (Scenario.with_communicate Scenario.only_browse_answers (Scenario.healthy "darwin"))
         init)
  = Ret true.
Proof.
  apply (proj1 (test_mdns_with_dns_sd_timeout
                  (Scenario.with_communicate Scenario.only_browse_answers
                     (Scenario.healthy "darwin"))
                  init Scenario.browse_reply "" "Command timed out after 1 seconds"
                  eq_refl (fun _ _ => eq_refl) eq_refl eq_refl)).
  reflexivity.
Defined.

(** X4.  When the browse output lacks "_hap._tcp", [test_mdns_advertisement]
    returns [False], its last line is "[ERROR] No HAP services found via
    mDNS", and the browse is the only command it has started. *)
Theorem test_mdns_advertisement_no_service (env : Env) (s : State) (out err : string) :
  interrupt_at env = None ->
  os_popen env (next_id s) dns_sd_browse = Ok tt ->
  os_communicate env (next_id s) dns_sd_browse = Ok (out, err) ->
  contains "_hap._tcp" out = false ->
  let r := HapPairing.test_mdns_advertisement env s in
  fst r = Ret false
  /\ last_line (snd r) = "[ERROR] No HAP services found via mDNS"
  /\ spawned_of (trace (snd r)) = (spawned_of (trace s) ++ [dns_sd_browse])%list.
Proof.
  intros H Hp E1 Hc r. subst r. unfold dns_sd_browse in *.
  unfold HapPairing.test_mdns_advertisement. run_script H.
  split; [reflexivity | split; [read_last_line | read_trace]].
Qed.

Lemma test_mdns_advertisement_no_service_witness :
  fst (HapPairing.test_mdns_advertisement
         (Scenario.with_communicate Scenario.silent (Scenario.healthy "darwin")) init)
  = Ret false.
Proof.
  apply (test_mdns_advertisement_no_service
           (Scenario.with_communicate Scenario.silent (Scenario.healthy "darwin")) init "" "");
    reflexivity.
Defined.

(** X5.  When dns-sd cannot be started (any fault of [Popen] but
    [TimeoutExpired], for instance [FileNotFoundError] on a host without
    dns-sd), [test_mdns_advertisement] returns [False] and its last line is
    "[ERROR] mDNS test failed: fault". *)
Theorem test_mdns_advertisement_cannot_start (env : Env) (s : State)
    (c : exc_class) (msg : string) :
  interrupt_at env = None ->
  os_popen env (next_id s) dns_sd_browse = Fault c msg ->
  c <> TimeoutExpired ->
  let r := HapPairing.test_mdns_advertisement env s in
  fst r = Ret false
  /\ last_line (snd r) = "[ERROR] mDNS test failed: " ++ msg
  /\ spawned_of (trace (snd r)) = (spawned_of (trace s) ++ [dns_sd_browse])%list.
Proof.
  intros H Hp Hc r. subst r. unfold dns_sd_browse in *.
  unfold HapPairing.test_mdns_advertisement. run_script H.
  destruct c; try congruence; (split; [reflexivity | split; [read_last_line | read_trace]]).
Qed.

Lemma test_mdns_advertisement_cannot_start_witness :
  fst (HapPairing.test_mdns_advertisement
         (Scenario.with_popen Scenario.no_dns_sd (Scenario.healthy "linux")) init)
  = Ret false.
Proof.
  apply (test_mdns_advertisement_cannot_start
           (Scenario.with_popen Scenario.no_dns_sd (Scenario.healthy "linux")) init
           FileNotFoundError "[Errno 2] No such file or directory: 'dns-sd'");
    [reflexivity | reflexivity | discriminate].
Defined.

(** ** A world that answers by command line *)

Section AnswersByCommand.

Variable env : Env.
Variable answer : list string -> string.
Hypothesis Hrun : interrupt_at env = None.
Hypothesis Hpopen : forall pid cmd, os_popen env pid cmd = Ok tt.
Hypothesis Hanswer :
  forall pid cmd, exists err, os_communicate env pid cmd = Ok (answer cmd, err).

Lemma resolve_bridge_lines_result (lines : list string) (s : State) :
  fst (HapPairing.resolve_bridge_lines env lines s)
  = Ret (existsb (bridge_confirmed env answer) lines).
Proof.
  revert s. induction lines as [| line rest IH]; intros s; [reflexivity |].
  cbn [HapPairing.resolve_bridge_lines existsb]. unfold bridge_confirmed at 1.
  destruct (contains "SmartThings Bridge" line); cbn [andb orb]; [| apply IH].
  destruct (re_search env _ line) as [name |]; cbn [orb]; [| apply IH].
  destruct (Hanswer (next_id s) (dns_sd_resolve name)) as [err E].
  unfold dns_sd_resolve in *.
  run_spawning Hrun Hpopen.
  destruct (contains "can be reached at" (answer _)); cbn [andb orb]; [| apply IH].
  destruct (contains "51826" (answer _)); cbn [andb orb]; [reflexivity | apply IH].
Qed.

End AnswersByCommand.

(** X3.  In a run the user does not interrupt and in which every dns-sd
    command starts and prints [answer cmd], [test_mdns_advertisement] returns
    [True] exactly when the browse output contains "_hap._tcp" and one of its
    lines contains "SmartThings Bridge", is matched by the regular expression,
    and the resolution of the matched name contains "can be reached at" and
    "51826".  The matcher is whatever [re.search] is in this world. *)
Theorem test_mdns_advertisement_result (env : Env) (answer : list string -> string)
    (s : State) :
  interrupt_at env = None ->
  (forall pid cmd, os_popen env pid cmd = Ok tt) ->
  (forall pid cmd, exists err, os_communicate env pid cmd = Ok (answer cmd, err)) ->
  fst (HapPairing.test_mdns_advertisement env s)
  = Ret (contains "_hap._tcp" (answer dns_sd_browse)
         && existsb (bridge_confirmed env answer)
              (split_on (ascii_of_nat 10) (answer dns_sd_browse))).
Proof.
  intros H Hp Ha. unfold HapPairing.test_mdns_advertisement.
  destruct (Ha (next_id s) dns_sd_browse) as [err E]. unfold dns_sd_browse in *.
  run_spawning H Hp.
  destruct (contains "_hap._tcp" (answer _)); run_spawning H Hp; [| reflexivity].
  match goal with
  | |- context [HapPairing.resolve_bridge_lines env ?l ?st] =>
      pose proof (resolve_bridge_lines_result env answer H Hp Ha l st) as Hl;
      destruct (HapPairing.resolve_bridge_lines env l st) as [r s']
  end.
  cbn [fst] in Hl. subst r.
  destruct (existsb _ _); reflexivity.
Qed.

Lemma test_mdns_advertisement_result_witness :
  fst (HapPairing.test_mdns_advertisement
         (Scenario.with_communicate (fun _ cmd => Ok (Scenario.bonjour cmd, ""))
            (Scenario.healthy "darwin")) init)
  = Ret true.
Proof.
  apply (test_mdns_advertisement_result
           (Scenario.with_communicate (fun _ cmd => Ok (Scenario.bonjour cmd, ""))
              (Scenario.healthy "darwin"))
           Scenario.bonjour init);
    [reflexivity | intros pid cmd; reflexivity | intros pid cmd; exists ""; reflexivity].
Defined.

(** ** Resolutions that time out *)

Section ResolveTimesOut.

Variable env : Env.
Variable msg : string.
Hypothesis Hrun : interrupt_at env = None.
Hypothesis Hpopen : forall pid cmd, os_popen env pid cmd = Ok tt.
Hypothesis Htimeout :
  forall pid name, os_communicate env pid (dns_sd_resolve name) = Fault TimeoutExpired msg.

Lemma resolve_bridge_lines_timeout (lines : list string) (s : State) :
  let r := HapPairing.resolve_bridge_lines env lines s in
  output (snd r) = output s
  /\ fst r = if existsb (names_bridge env) lines
             then Raise (Exc TimeoutExpired msg)
             else Ret false.
Proof.
  revert s. induction lines as [| line rest IH]; intros s; [split; reflexivity |].
  cbn [HapPairing.resolve_bridge_lines existsb]. unfold names_bridge at 1.
  destruct (contains "SmartThings Bridge" line); cbn [andb orb]; [| apply IH].
  destruct (re_search env _ line) as [name |]; cbn [orb]; [| apply IH].
  pose proof (Htimeout (next_id s) name) as E. unfold dns_sd_resolve in E.
  run_spawning Hrun Hpopen. split; reflexivity.
Qed.

End ResolveTimesOut.

(** X6.  When the browse has found the service and a line names a bridge, but
    every resolution is still running when [communicate] gives up,
    [test_mdns_advertisement] returns [True]: the [TimeoutExpired] handler
    looks at the browse output only. *)
Theorem test_mdns_advertisement_resolve_timeout (env : Env) (s : State)
    (out err msg : string) :
  interrupt_at env = None ->
  (forall pid cmd, os_popen env pid cmd = Ok tt) ->
  os_communicate env (next_id s) dns_sd_browse = Ok (out, err) ->
  contains "_hap._tcp" out = true ->
  existsb (names_bridge env) (split_on (ascii_of_nat 10) out) = true ->
  (forall pid name, os_communicate env pid (dns_sd_resolve name) = Fault TimeoutExpired msg) ->
  fst (HapPairing.test_mdns_advertisement env s) = Ret true.
Proof.
  intros H Hp E Hc Hb Ht. unfold HapPairing.test_mdns_advertisement.
  unfold dns_sd_browse in *.
  run_spawning H Hp.
  match goal with
  | |- context [HapPairing.resolve_bridge_lines env ?l ?st] =>
      destruct (resolve_bridge_lines_timeout env msg H Hp Ht l st) as [Ho Hl];
      destruct (HapPairing.resolve_bridge_lines env l st) as [r s']
  end.
  cbn [fst snd output emit tick alloc bind_output] in Ho, Hl. rewrite Hb in Hl. subst r.
  cbn [fst snd]. rewrite Ho. cbn [fst]. rewrite Hc. reflexivity.
Qed.

Lemma test_mdns_advertisement_resolve_timeout_witness :
  fst (HapPairing.test_mdns_advertisement
         (Scenario.with_communicate Scenario.only_browse_answers (Scenario.healthy "darwin"))
         init)
  = Ret true.
Proof.
  apply (test_mdns_advertisement_resolve_timeout
           (Scenario.with_communicate Scenario.only_browse_answers (Scenario.healthy "darwin"))
           init Scenario.browse_reply "" "Command timed out after 1 seconds");
    [ reflexivity | intros pid cmd; reflexivity | reflexivity | reflexivity | reflexivity
    | intros pid name; reflexivity ].
Defined.

(** * The verdict of [run_all_tests] and the exit of [main], from the probes *)

Lemma run_all_tests_summary_result (tcp disc web mdns : bool) (s : State) :
  fst (HapPairing.run_all_tests_summary
         [("TCP Connection", tcp); ("HAP Discovery", disc);
          ("Web API", web); ("mDNS Advertisement", mdns)] s)
  = Ret (tcp && mdns).
Proof. destruct tcp, disc, web, mdns; reflexivity. Qed.

Lemma run_all_tests_outcome (cfg : HapPairing.Config) (env : Env) (s : State) :
  interrupt_at env = None ->
  exists tcp,
    fst (HapPairing.test_hap_tcp_connection cfg env (run_all_tests_start s)) = Ret tcp
    /\ fst (HapPairing.run_all_tests cfg env s)
       = match fst (HapPairing.test_mdns_advertisement env
                      (run_all_tests_mdns_start cfg env s)) with
         | Ret mdns => Ret (tcp && mdns)
         | Raise e => Raise e
         end.
Proof.
  intros H. unfold run_all_tests_mdns_start.
  unfold HapPairing.run_all_tests, run_all_tests_start, call.
  unfold bind, HapPairing.log, print_stderr, do_emit. cbv beta iota. cbn [snd].
  match goal with
  | |- context [HapPairing.test_hap_tcp_connection cfg env ?st] =>
      destruct (test_hap_tcp_connection_returns env H cfg st) as [tcp Et];
      destruct (HapPairing.test_hap_tcp_connection cfg env st) as [r1 s1]
  end.
  cbn [fst] in Et. subst r1. cbv beta iota. cbn [snd].
  match goal with
  | |- context [HapPairing.test_hap_discovery_endpoint cfg env ?st] =>
      destruct (test_hap_discovery_endpoint_returns env H cfg st) as [disc Ed];
      destruct (HapPairing.test_hap_discovery_endpoint cfg env st) as [r2 s2]
  end.
  cbn [fst] in Ed. subst r2. cbv beta iota. cbn [snd].
  match goal with
  | |- context [HapPairing.test_web_api cfg env ?st] =>
      destruct (test_web_api_returns env H cfg st) as [web Ew];
      destruct (HapPairing.test_web_api cfg env st) as [r3 s3]
  end.
  cbn [fst] in Ew. subst r3. cbv beta iota. cbn [snd].
  exists tcp. split; [reflexivity |].
  match goal with
  | |- context [HapPairing.test_mdns_advertisement env ?st] =>
      destruct (HapPairing.test_mdns_advertisement env st) as [[mdns | e] s5]
  end.
  - cbn [fst HapPairing.dict_set String.eqb Ascii.eqb Bool.eqb].
    pose proof (run_all_tests_summary_result tcp disc web mdns s5) as Hs.
    destruct (HapPairing.run_all_tests_summary _ s5) as [r s6] eqn:Er in Hs |- *.
    exact Hs.
  - reflexivity.
Qed.

Lemma tcp_probe_unconnected (cfg : HapPairing.Config) (env : Env) (s : State) :
  interrupt_at env = None ->
  os_connect_ex env (next_id s) <> Ok 0 ->
  fst (HapPairing.test_hap_tcp_connection cfg env s) = Ret false.
Proof.
  intros H Hc. unfold HapPairing.test_hap_tcp_connection.
  destruct (os_socket env (next_id s)) as [[] | c m] eqn:Es; [| run_probe H; reflexivity].
  destruct (os_connect_ex env (next_id s)) as [code | c m] eqn:Ec;
    [| run_probe H; reflexivity].
  destruct (code =? 0) eqn:E0; [apply Z.eqb_eq in E0; congruence |].
  run_probe H. reflexivity.
Qed.

Lemma main_outcome (cfg : HapPairing.Config) (env : Env) (s : State) :
  interrupt_at env = None ->
  fst (HapPairing.main cfg env s)
  = Raise (SystemExit
             match fst (HapPairing.run_all_tests cfg env (main_start s)) with
             | Ret true => 0
             | Ret false => 1
             | Raise (SystemExit code) => code
             | Raise KeyboardInterrupt => 130
             | Raise (Exc _ _) => 1
             end).
Proof.
  intros H. unfold HapPairing.main, main_start, call, try_except, bind, HapPairing.log,
    print_stderr, do_emit, sys_exit, raise, time_sleep, extern.
  cbv beta iota. rewrite (interrupted_none env H). cbn [of_out].
  destruct (HapPairing.run_all_tests cfg env _) as [[[|] | e] s3];
    [reflexivity | reflexivity | destruct e as [| c | c m]; reflexivity].
Qed.

Lemma run_all_tests_raises_exceptions (cfg : HapPairing.Config) (env : Env) (s : State)
    (e : exn) :
  interrupt_at env = None ->
  fst (HapPairing.run_all_tests cfg env s) = Raise e ->
  exists c msg, e = Exc c msg.
Proof.
  intros H E.
  assert (Hr : emits any_event (raisable env) (HapPairing.run_all_tests cfg env))
    by (apply emits_run_all_tests; emits_side).
  destruct (Hr s) as [_ Hx]. rewrite E in Hx.
  destruct e as [| code | c msg]; cbn in Hx; [congruence | contradiction | eauto].
Qed.

(** X12.  In a run the user does not interrupt, [run_all_tests] returns [True]
    exactly when its calls of [test_hap_tcp_connection] and of
    [test_mdns_advertisement] both returned [True]; the two other probes do
    not count. *)
Theorem run_all_tests_needs_critical (cfg : HapPairing.Config) (env : Env) (s : State) :
  interrupt_at env = None ->
  fst (HapPairing.run_all_tests cfg env s) = Ret true
  <-> fst (HapPairing.test_hap_tcp_connection cfg env (run_all_tests_start s)) = Ret true
      /\ fst (HapPairing.test_mdns_advertisement env (run_all_tests_mdns_start cfg env s))
         = Ret true.
Proof.
  intros H. destruct (run_all_tests_outcome cfg env s H) as [tcp [Et Er]].
  rewrite Er, Et.
  destruct (fst (HapPairing.test_mdns_advertisement env _)) as [mdns | e].
  - destruct tcp, mdns; cbn; split;
      first [ intros E; discriminate E
            | intros [E1 E2]; first [discriminate E1 | discriminate E2]
            | intros _; split; reflexivity
            | reflexivity ].
  - split; [intros E; discriminate E | intros [_ E]; discriminate E].
Qed.

Lemma run_all_tests_needs_critical_witness :
  fst (HapPairing.run_all_tests HapPairing.config (Scenario.healthy "darwin") init)
  = Ret true.
Proof.
  apply (proj2 (run_all_tests_needs_critical HapPairing.config (Scenario.healthy "darwin")
                  init eq_refl)).
  split; vm_compute; reflexivity.
Defined.

(** X14.  In a run the user does not interrupt, if the first socket does not
    connect ([connect_ex] answers anything but 0), [main] of
    [test-hap-pairing.py] exits with status 1, whatever the other probes
    find. *)
Theorem main_fails_on_closed_port (cfg : HapPairing.Config) (env : Env) :
  interrupt_at env = None ->
  os_connect_ex env 0%nat <> Ok 0 ->
  fst (HapPairing.main cfg env init) = Raise (SystemExit 1).
Proof.
  intros H Hc. rewrite (main_outcome cfg env init H).
  destruct (run_all_tests_outcome cfg env (main_start init) H) as [tcp [Et Er]].
  rewrite (tcp_probe_unconnected cfg env (run_all_tests_start (main_start init)) H Hc) in Et.
  inversion Et; subst tcp.
  destruct (fst (HapPairing.run_all_tests cfg env (main_start init))) as [v | e] eqn:Ev.
  - destruct (fst (HapPairing.test_mdns_advertisement env _)); [| discriminate Er].
    inversion Er; subst. reflexivity.
  - destruct (run_all_tests_raises_exceptions cfg env _ e H Ev) as [c [msg Ee]].
    subst e. reflexivity.
Qed.

Lemma main_fails_on_closed_port_witness :
  fst (HapPairing.main HapPairing.config
         (Scenario.with_connect_ex (Ok 111) (Scenario.healthy "darwin")) init)
  = Raise (SystemExit 1).
Proof.
  apply main_fails_on_closed_port; [reflexivity | cbn; discriminate].
Defined.

(** X15.  In a run the user does not interrupt, on a host where the dns-sd
    browse cannot be started, [main] of [test-hap-pairing.py] exits with
    status 1, however healthy the bridge is. *)
Theorem main_fails_without_dns_sd (cfg : HapPairing.Config) (env : Env)
    (c : exc_class) (msg : string) :
  interrupt_at env = None ->
  (forall pid, os_popen env pid dns_sd_browse = Fault c msg) ->
  c <> TimeoutExpired ->
  fst (HapPairing.main cfg env init) = Raise (SystemExit 1).
Proof.
  intros H Hp Hc. rewrite (main_outcome cfg env init H).
  destruct (run_all_tests_outcome cfg env (main_start init) H) as [tcp [Et Er]].
  rewrite Er.
  generalize (run_all_tests_mdns_start cfg env (main_start init)). intros s4.
  assert (Em : fst (HapPairing.test_mdns_advertisement env s4) = Ret false).
  { pose proof (Hp (next_id s4)) as Hq. unfold dns_sd_browse in Hq.
    unfold HapPairing.test_mdns_advertisement. run_script H.
    destruct c; try congruence; reflexivity. }
  rewrite Em. rewrite andb_false_r. reflexivity.
Qed.

Lemma main_fails_without_dns_sd_witness :
  fst (HapPairing.main HapPairing.config
         (Scenario.with_popen Scenario.no_dns_sd (Scenario.healthy "linux")) init)
  = Raise (SystemExit 1).
Proof.
  apply (main_fails_without_dns_sd HapPairing.config
           (Scenario.with_popen Scenario.no_dns_sd (Scenario.healthy "linux"))
           FileNotFoundError "[Errno 2] No such file or directory: 'dns-sd'");
    [reflexivity | intros pid; reflexivity | discriminate].
Defined.

(** * Ctrl-C *)

Section Interrupts.

Variable env : Env.

Lemma not_within_empty (a : nat) : ~ interrupted_within env a a.
Proof. intros [n [_ Hn]]. lia. Qed.

Lemma within_split (a b c : nat) :
  (a <= b <= c)%nat ->
  (interrupted_within env a c
   <-> interrupted_within env a b \/ interrupted_within env b c).
Proof.
  intros Habc. split.
  - intros [n [E Hn]]. destruct (Nat.lt_ge_cases n b).
    + left. exists n. split; [exact E | lia].
    + right. exists n. split; [exact E | lia].
  - intros [[n [E Hn]] | [n [E Hn]]]; exists n; (split; [exact E | lia]).
Qed.

(** A computation that makes no blocking call and raises no interrupt. *)
Lemma interruptible_still {A} (m : M A) :
  (forall s, clock (snd (m s)) = clock s /\ ~ raised_interrupt (fst (m s))) ->
  interruptible env m.
Proof.
  intros H s. destruct (H s) as [Ec Hr]. rewrite Ec. split; [lia |].
  split; [intros E; contradiction | intros Hw; exfalso; exact (not_within_empty _ Hw)].
Qed.

Lemma interruptible_ret {A} (a : A) : interruptible env (ret a).
Proof. apply interruptible_still. intros s. split; [reflexivity | intros []]. Qed.

Lemma interruptible_raise {A} (e : exn) :
  e <> KeyboardInterrupt -> interruptible env (@raise A e).
Proof.
  intros He. apply interruptible_still. intros s. split; [reflexivity |].
  cbn. destruct e; [congruence | intros [] | intros []].
Qed.

Lemma interruptible_do_emit (e : event) : interruptible env (do_emit e).
Proof. apply interruptible_still. intros s. split; [reflexivity | intros []]. Qed.

Lemma interruptible_set_output (o : string) : interruptible env (set_output o).
Proof. apply interruptible_still. intros s. split; [reflexivity | intros []]. Qed.

Lemma interruptible_get_output : interruptible env get_output.
Proof.
  apply interruptible_still. intros s. unfold get_output.
  destruct (output s); (split; [reflexivity | intros []]).
Qed.

Lemma interruptible_of_out {A} (o : Out A) : interruptible env (of_out o).
Proof.
  apply interruptible_still. intros s. destruct o; (split; [reflexivity | intros []]).
Qed.

Lemma interruptible_py_in (key : string) (data : json) : interruptible env (py_in key data).
Proof.
  apply interruptible_still. intros s. destruct data; (split; [reflexivity | intros []]).
Qed.

Lemma interrupted_iff (n : nat) :
  interrupted env n = true <-> interrupted_within env n (S n).
Proof.
  unfold interrupted, interrupted_within. destruct (interrupt_at env) as [k |].
  - rewrite Nat.eqb_eq. split.
    + intros E. exists k. split; [reflexivity | lia].
    + intros [m [E Hm]]. inversion E; subst. lia.
  - split; [discriminate | intros [m [E _]]; discriminate E].
Qed.

Lemma interruptible_extern {A} (o : Out A) : interruptible env (extern env o).
Proof.
  intros s. unfold extern. destruct (interrupted env (clock s)) eqn:Ei.
  - cbn [fst snd clock tick]. split; [lia |].
    split; [intros _; apply interrupted_iff; exact Ei | intros _; exact I].
  - assert (Hn : ~ interrupted_within env (clock s) (S (clock s))).
    { intros Hw. apply interrupted_iff in Hw. congruence. }
    destruct o; cbn [of_out fst snd clock tick]; (split; [lia |]);
      (split; [intros [] | intros Hw; contradiction]).
Qed.

Lemma interruptible_bind {A B} (m : M A) (k : A -> M B) :
  interruptible env m -> (forall a, interruptible env (k a)) ->
  interruptible env (bind m k).
Proof.
  intros Hm Hk s. unfold bind. destruct (Hm s) as [Hc Hi].
  destruct (m s) as [[a | e] s1]; cbn [fst snd] in *.
  - destruct (Hk a s1) as [Hc' Hi']. split; [lia |].
    rewrite Hi', (within_split (clock s) (clock s1)) by lia.
    split; [tauto |]. intros [Hw | Hw]; [| exact Hw].
    apply Hi in Hw. destruct Hw.
  - split; [exact Hc | exact Hi].
Qed.

Lemma interruptible_try_except {A} (m : M A) (h : exn -> option (M A)) :
  interruptible env m ->
  h KeyboardInterrupt = None ->
  (forall e k, h e = Some k -> interruptible env k) ->
  interruptible env (try_except m h).
Proof.
  intros Hm Hki Hh s. unfold try_except. destruct (Hm s) as [Hc Hi].
  destruct (m s) as [[a | e] s1]; cbn [fst snd] in *.
  - split; [exact Hc | exact Hi].
  - destruct (h e) as [k |] eqn:Ek.
    + assert (He : ~ raised_interrupt (@Raise A e)).
      { destruct e; cbn; [congruence | intros [] | intros []]. }
      destruct (Hh e k Ek s1) as [Hc' Hi']. split; [lia |].
      rewrite Hi', (within_split (clock s) (clock s1)) by lia.
      split; [tauto |]. intros [Hw | Hw]; [| exact Hw].
      apply Hi in Hw. contradiction.
    + split; [exact Hc | exact Hi].
Qed.

Lemma interruptible_except_Exception {A} (m : M A) (k : string -> M A) :
  interruptible env m -> (forall msg, interruptible env (k msg)) ->
  interruptible env (try_except m (except_Exception k)).
Proof.
  intros Hm Hk. apply interruptible_try_except; [exact Hm | reflexivity |].
  intros [| c | c msg] k' E; cbn in E; try discriminate E. inversion E; subst. apply Hk.
Qed.

(** [finally] clauses that make no blocking call and raise nothing. *)
Lemma interruptible_try_finally {A} (m : M A) (f : M unit) :
  interruptible env m ->
  (forall s, f s = (Ret tt, snd (f s)) /\ clock (snd (f s)) = clock s) ->
  interruptible env (try_finally m f).
Proof.
  intros Hm Hf s. unfold try_finally. destruct (Hm s) as [Hc Hi].
  destruct (m s) as [r s1]; cbn [fst snd] in *.
  destruct (Hf s1) as [Ef Ec]. rewrite Ef. cbn [fst snd]. rewrite Ec.
  split; [exact Hc | exact Hi].
Qed.

Lemma interruptible_call {A} (fn : string) (body : M A) :
  interruptible env body -> interruptible env (call fn body).
Proof.
  intros Hb s. unfold call.
  destruct (Hb (bind_output None (emit (Call fn) s))) as [Hc Hi].
  destruct (body _) as [r s1]; cbn [fst snd clock bind_output emit] in *.
  split; [exact Hc | exact Hi].
Qed.

Lemma interruptible_socket_socket : interruptible env (socket_socket env).
Proof.
  intros s. unfold socket_socket.
  destruct (interruptible_extern (os_socket env (next_id s)) s) as [Hc Hi].
  destruct (extern env _ s) as [[u | e] s1]; cbn [fst snd clock emit alloc] in *.
  - split; [exact Hc | exact Hi].
  - split; [exact Hc | exact Hi].
Qed.

Lemma interruptible_Popen (cmd : list string) : interruptible env (Popen env cmd).
Proof.
  intros s. unfold Popen.
  destruct (interruptible_extern (os_popen env (next_id s) cmd) (emit (Spawn cmd) s))
    as [Hc Hi].
  destruct (extern env _ _) as [[u | e] s1]; cbn [fst snd clock emit alloc] in *.
  - split; [exact Hc | exact Hi].
  - split; [exact Hc | exact Hi].
Qed.

Lemma interruptible_subprocess_run (cmd : list string) (t : Z) :
  interruptible env (subprocess_run env cmd t).
Proof.
  intros s. unfold subprocess_run.
  destruct (interruptible_extern (os_run env (next_id s) cmd) (emit (Spawn cmd) s))
    as [Hc Hi].
  destruct (extern env _ _) as [r s1]; cbn [fst snd clock emit alloc] in *.
  split; [exact Hc | exact Hi].
Qed.

End Interrupts.

Ltac interruptible_handler :=
  let e := fresh "e" in
  let k := fresh "k" in
  let E := fresh "E" in
  intros e k E;
  destruct e as [| ? | [] ?]; cbn in E; try discriminate E;
  inversion E; subst; clear E.

Ltac interruptible_step :=
  lazymatch goal with
  | |- interruptible _ (ret _) => apply interruptible_ret
  | |- interruptible _ (bind _ _) => apply interruptible_bind; [| intros ?]
  | |- interruptible _ (try_except _ (except_Exception _)) =>
      apply interruptible_except_Exception; [| intros ?]
  | |- interruptible _ (try_except _ _) =>
      apply interruptible_try_except; [| reflexivity | interruptible_handler]
  | |- interruptible _ (try_finally _ (sock_close _)) =>
      apply interruptible_try_finally; [| intros ?; split; reflexivity]
  | |- interruptible _ (call _ _) => apply interruptible_call
  | |- interruptible _ (HapPairing.log _ _) => apply interruptible_do_emit
  | |- interruptible _ (print_stderr _) => apply interruptible_do_emit
  | |- interruptible _ (sock_close _) => apply interruptible_do_emit
  | |- interruptible _ (sock_settimeout _ _) => apply interruptible_ret
  | |- interruptible _ (proc_terminate _) => apply interruptible_ret
  | |- interruptible _ (set_output _) => apply interruptible_set_output
  | |- interruptible _ get_output => apply interruptible_get_output
  | |- interruptible _ (of_out _) => apply interruptible_of_out
  | |- interruptible _ (py_in _ _) => apply interruptible_py_in
  | |- interruptible _ (time_sleep _ _) => apply interruptible_extern
  | |- interruptible _ (sock_connect_ex _ _ _) => apply interruptible_extern
  | |- interruptible _ (sock_send _ _ _) => apply interruptible_extern
  | |- interruptible _ (sock_recv _ _ _) => apply interruptible_extern
  | |- interruptible _ (proc_communicate _ _ _) => apply interruptible_extern
  | |- interruptible _ (urlopen _ _ _) => apply interruptible_extern
  | |- interruptible _ (response_read_decode _ _) => apply interruptible_extern
  | |- interruptible _ (socket_socket _) => apply interruptible_socket_socket
  | |- interruptible _ (Popen _ _) => apply interruptible_Popen
  | |- interruptible _ (subprocess_run _ _ _) => apply interruptible_subprocess_run
  | |- interruptible _ (sys_exit _) => apply interruptible_raise; discriminate
  | |- interruptible _ (raise _) => apply interruptible_raise; discriminate
  | |- interruptible _ (if ?b then _ else _) => destruct b
  | |- interruptible _ (match ?x with _ => _ end) => destruct x
  | |- interruptible _ (let _ := _ in _) => cbv zeta
  end.

Ltac interruptible_auto := repeat interruptible_step.

Section ScriptInterrupts.

Variable env : Env.

Lemma interruptible_subscript (d : HapPairing.dict) (k : string) :
  interruptible env (HapPairing.subscript d k).
Proof. unfold HapPairing.subscript. interruptible_auto. Qed.

Lemma interruptible_log_results (d : HapPairing.dict) :
  interruptible env (HapPairing.log_results d).
Proof.
  induction d as [| [name passed] d IH]; cbn [HapPairing.log_results].
  - apply interruptible_ret.
  - apply interruptible_bind; [apply interruptible_do_emit | intros _; exact IH].
Qed.

Lemma interruptible_resolve_bridge_lines (lines : list string) :
  interruptible env (HapPairing.resolve_bridge_lines env lines).
Proof.
  induction lines as [| line rest IH].
  - apply interruptible_ret.
  - cbn [HapPairing.resolve_bridge_lines]. repeat first [exact IH | interruptible_step].
Qed.

Lemma interruptible_run_all_tests (cfg : HapPairing.Config) :
  interruptible env (HapPairing.run_all_tests cfg env).
Proof.
  unfold HapPairing.run_all_tests, HapPairing.test_hap_tcp_connection,
    HapPairing.test_hap_discovery_endpoint, HapPairing.test_web_api,
    HapPairing.test_mdns_advertisement, HapPairing.run_all_tests_summary.
  repeat first
    [ interruptible_step
    | apply interruptible_resolve_bridge_lines
    | apply interruptible_log_results
    | apply interruptible_subscript ].
Qed.

Lemma interruptible_mdns_main : interruptible env (MdnsTest.main env).
Proof.
  unfold MdnsTest.main, MdnsTest.test_direct_port, MdnsTest.test_mdns_with_dns_sd,
    MdnsTest.test_mdns_with_avahi.
  interruptible_auto.
Qed.

End ScriptInterrupts.

Lemma bind_assoc {A B C} (m : M A) (f : A -> M B) (g : B -> M C) (s : State) :
  bind (bind m f) g s = bind m (fun x => bind (f x) g) s.
Proof.
  unfold bind. destruct (m s) as [[a | e] s1]; reflexivity.
Qed.

(** X16.  [main] of [test-hap-pairing.py] exits with status 130 exactly when
    the user pressed Ctrl-C during one of the blocking calls the run made: no
    probe swallows a [KeyboardInterrupt], and nothing else yields 130. *)
Theorem main_exits_130_iff_interrupted (cfg : HapPairing.Config) (env : Env) :
  let r := HapPairing.main cfg env init in
  fst r = Raise (SystemExit 130) <-> interrupted_within env 0 (clock (snd r)).
Proof.
  intros r. subst r.
  pose proof (interruptible_run_all_tests env cfg) as Hrun.
  set (pre := (HapPairing.log "Waiting for server to stabilize..." "INFO" ;;
               time_sleep env 2) ;;
              HapPairing.run_all_tests cfg env).
  assert (Hbody : interruptible env pre).
  { subst pre. repeat first [exact Hrun | interruptible_step]. }
  assert (Hexit : emits any_event not_exit pre).
  { subst pre. repeat first [emits_step | apply run_all_tests_never_exits]. }
  specialize (Hbody (bind_output None (emit (Call "main") init))).
  specialize (Hexit (bind_output None (emit (Call "main") init))).
  destruct Hbody as [_ Hi]. destruct Hexit as [_ Hx].
  cbn [clock bind_output emit init] in Hi.
  unfold HapPairing.main, call, try_except.
  rewrite <- !bind_assoc. fold pre.
  unfold bind.
  destruct (pre (bind_output None (emit (Call "main") init))) as [[[|] | e] s1];
    cbn [fst snd] in *.
  - unfold sys_exit, raise. cbn [fst snd clock bind_output].
    rewrite <- Hi. split; [intros E; discriminate E | intros []].
  - unfold sys_exit, raise. cbn [fst snd clock bind_output].
    rewrite <- Hi. split; [intros E; discriminate E | intros []].
  - destruct e as [| code | c msg]; cbn [fst snd clock bind_output] in *.
    + unfold bind, HapPairing.log, print_stderr, do_emit, sys_exit, raise.
      cbn [fst snd clock bind_output emit]. rewrite <- Hi.
      split; [intros _; exact I | reflexivity].
    + contradiction.
    + unfold bind, HapPairing.log, print_stderr, do_emit, sys_exit, raise.
      cbn [fst snd clock bind_output emit]. rewrite <- Hi.
      split; [intros E; discriminate E | intros []].
Qed.

(** X25.  [main] of [test-mdns.py] has no handler: it ends in an uncaught
    [KeyboardInterrupt] exactly when the user pressed Ctrl-C during one of the
    blocking calls the run made. *)
Theorem mdns_main_interrupt (env : Env) :
  let r := MdnsTest.main env init in
  fst r = Raise KeyboardInterrupt <-> interrupted_within env 0 (clock (snd r)).
Proof.
  intros r. subst r. destruct (interruptible_mdns_main env init) as [_ Hi].
  cbn [clock init] in Hi. rewrite <- Hi.
  destruct (fst (MdnsTest.main env init)) as [u | [| code | c msg]]; cbn;
    (split;
     [ intros E; first [exact I | discriminate E]
     | intros Hr; first [reflexivity | destruct Hr] ]).
Qed.

(** * Probes that always return *)

Lemma returns_print_stderr (line : string) : returns (print_stderr line).
Proof. intros s. exists tt. reflexivity. Qed.

Lemma test_port_open_returns (env : Env) (host : string) (port timeout : Z) :
  interrupt_at env = None -> returns (HapPairing.test_port_open env host port timeout).
Proof.
  intros H. unfold HapPairing.test_port_open.
  apply returns_call. eapply returns_guarded with (Pev := any_event);
    [ exact H | emits_auto
    | intros msg; apply returns_bind; [apply returns_log | intros _; apply returns_ret] ].
Qed.

Lemma test_direct_port_returns (env : Env) :
  interrupt_at env = None -> returns (MdnsTest.test_direct_port env).
Proof.
  intros H. unfold MdnsTest.test_direct_port.
  apply returns_call. eapply returns_guarded with (Pev := any_event);
    [ exact H | emits_auto
    | intros msg; apply returns_bind;
      [apply returns_print_stderr | intros _; apply returns_ret] ].
Qed.

(** X11.  In a run the user does not interrupt, the probes whose whole body is
    guarded by [except Exception] always return a verdict:
    [test_hap_tcp_connection], [test_hap_discovery_endpoint], [test_web_api],
    [test_port_open] and [test_direct_port] raise nothing. *)
Theorem guarded_probes_return (cfg : HapPairing.Config) (env : Env)
    (host : string) (port timeout : Z) :
  interrupt_at env = None ->
  returns (HapPairing.test_hap_tcp_connection cfg env)
  /\ returns (HapPairing.test_hap_discovery_endpoint cfg env)
  /\ returns (HapPairing.test_web_api cfg env)
  /\ returns (HapPairing.test_port_open env host port timeout)
  /\ returns (MdnsTest.test_direct_port env).
Proof.
  intros H. split; [| split; [| split; [| split]]].
  - apply test_hap_tcp_connection_returns. exact H.
  - apply test_hap_discovery_endpoint_returns. exact H.
  - apply test_web_api_returns. exact H.
  - apply test_port_open_returns. exact H.
  - apply test_direct_port_returns. exact H.
Qed.

Lemma guarded_probes_return_witness :
  exists verdict,
    fst (HapPairing.test_web_api HapPairing.config
           (Scenario.with_urlopen Scenario.unreachable_web (Scenario.healthy "darwin")) init)
    = Ret verdict.
Proof.
  apply (proj1 (proj2 (proj2
           (guarded_probes_return HapPairing.config
              (Scenario.with_urlopen Scenario.unreachable_web (Scenario.healthy "darwin"))
              "localhost" 51826 5 eq_refl)))).
Defined.

(** * The web API probe: what it logs *)

(** X9.  What [test_web_api] logs.  A fault of [urlopen], of reading the body
    or of [json.loads] gives [False] and "Web API test failed: fault"; a
    payload that is null, a boolean, an int or a float gives [False] and, in
    that line, the [TypeError] of [in] that names its type; on any other
    payload the verdict [True] comes with the DEBUG line of the pairing info
    and [False] with "Web API returned unexpected data". *)
Theorem test_web_api_failures (cfg : HapPairing.Config) (env : Env) (s : State) :
  interrupt_at env = None ->
  let url := "http://localhost:" ++ str_Z (HapPairing.WEB_PORT cfg) ++ "/api/homekit/pairing" in
  let r := HapPairing.test_web_api cfg env s in
  (forall c msg,
     http_urlopen env url = Fault c msg
     \/ (exists resp, http_urlopen env url = Ok resp
         /\ (read_decode resp = Fault c msg
             \/ exists body, read_decode resp = Ok body
                /\ json_loads env body = Fault c msg)) ->
     fst r = Ret false /\ last_line (snd r) = "[ERROR] Web API test failed: " ++ msg)
  /\ (forall resp body data,
        http_urlopen env url = Ok resp -> read_decode resp = Ok body ->
        json_loads env body = Ok data ->
        match data with
        | JNull =>
            fst r = Ret false
            /\ last_line (snd r)
               = "[ERROR] Web API test failed: argument of type 'NoneType' is not iterable"
        | JBool _ =>
            fst r = Ret false
            /\ last_line (snd r)
               = "[ERROR] Web API test failed: argument of type 'bool' is not iterable"
        | JInt _ =>
            fst r = Ret false
            /\ last_line (snd r)
               = "[ERROR] Web API test failed: argument of type 'int' is not iterable"
        | JFloat _ =>
            fst r = Ret false
            /\ last_line (snd r)
               = "[ERROR] Web API test failed: argument of type 'float' is not iterable"
        | _ =>
            (fst r = Ret true
             /\ last_line (snd r) = "[DEBUG] Pairing info: " ++ json_dumps env data)
            \/ (fst r = Ret false
                /\ last_line (snd r)
                   = "[ERROR] Web API returned unexpected data: " ++ py_repr env data)
        end).
Proof.
  intros H url r. subst url r. unfold HapPairing.test_web_api. cbv zeta.
  split.
  - intros c msg [Eu | [resp [Eu [Er | [body [Er Ej]]]]]];
      run_probe H; (split; [reflexivity | read_last_line]).
  - intros resp body data Eu Er Ej. run_probe H.
    destruct data as [| b | n | x | str | items | members]; unfold py_in; run_probe H;
      try (split; [reflexivity | read_last_line]).
    + destruct (contains "qrCode" str); run_probe H;
        [| right; split; [reflexivity | read_last_line]].
      destruct (contains "pairingCode" str); run_probe H;
        [left; split; [reflexivity | read_last_line] |].
      destruct (contains "setupCode" str); run_probe H;
        [left; split; [reflexivity | read_last_line] |].
      destruct (contains "pinCode" str); run_probe H;
        [left | right]; (split; [reflexivity | read_last_line]).
    + destruct (existsb _ items); run_probe H;
        [| right; split; [reflexivity | read_last_line]].
      destruct (existsb _ items); run_probe H;
        [left; split; [reflexivity | read_last_line] |].
      destruct (existsb _ items); run_probe H;
        [left; split; [reflexivity | read_last_line] |].
      destruct (existsb _ items); run_probe H;
        [left | right]; (split; [reflexivity | read_last_line]).
    + destruct (existsb _ members); run_probe H;
        [| right; split; [reflexivity | read_last_line]].
      destruct (existsb _ members); run_probe H;
        [left; split; [reflexivity | read_last_line] |].
      destruct (existsb _ members); run_probe H;
        [left; split; [reflexivity | read_last_line] |].
      destruct (existsb _ members); run_probe H;
        [left | right]; (split; [reflexivity | read_last_line]).
Qed.

Lemma test_web_api_failures_witness :
  let r := HapPairing.test_web_api HapPairing.config
             (Scenario.with_urlopen Scenario.unreachable_web (Scenario.healthy "darwin"))
             init in
  fst r = Ret false
  /\ last_line (snd r)
     = "[ERROR] Web API test failed: <urlopen error [Errno 111] Connection refused>".
Proof.
  apply (proj1 (test_web_api_failures HapPairing.config
                  (Scenario.with_urlopen Scenario.unreachable_web (Scenario.healthy "darwin"))
                  init eq_refl) URLError).
  left. reflexivity.
Defined.

(** * [test-mdns.py] from end to end *)

(** X24.  [test-mdns.py] on a host that is not macOS, port 51826 open, no
    Ctrl-C: [main] exits with 0 when the output of avahi-browse contains
    "SmartThings" and with 1 when it does not, or when avahi-browse timed out
    or is not installed; any other fault of [subprocess.run] leaves [main]
    uncaught. *)
Theorem mdns_main_avahi (env : Env) (s : State) :
  interrupt_at env = None ->
  String.eqb (sys_platform env) "darwin" = false ->
  let h := next_id s in
  os_socket env h = Ok tt ->
  os_connect_ex env h = Ok 0 ->
  let o := os_run env (S h) avahi_browse in
  let r := fst (MdnsTest.main env s) in
  (forall out, o = Ok out ->
     r = Raise (SystemExit (if contains "SmartThings" out then 0 else 1)))
  /\ (forall msg, o = Fault TimeoutExpired msg \/ o = Fault FileNotFoundError msg ->
      r = Raise (SystemExit 1))
  /\ (forall c msg, o = Fault c msg -> c <> TimeoutExpired -> c <> FileNotFoundError ->
      r = Raise (Exc c msg)).
Proof.
  intros H Hp h Es Ec o r. subst r.
  assert (Eo : os_run env (S h) avahi_browse = o) by reflexivity. clearbody o.
  subst h. unfold avahi_browse in Eo.
  unfold MdnsTest.main, MdnsTest.test_direct_port, MdnsTest.test_mdns_with_avahi,
    subprocess_run.
  rewrite Hp. run_script H.
  split; [| split].
  - intros out E. rewrite E. cbn [of_out fst].
    destruct (contains "SmartThings" out); reflexivity.
  - intros msg [E | E]; rewrite E; reflexivity.
  - intros c msg E Hc1 Hc2. rewrite E. destruct c; try congruence; reflexivity.
Qed.

Lemma mdns_main_avahi_witness :
  fst (MdnsTest.main (Scenario.healthy "linux") init) = Raise (SystemExit 0).
Proof.
  apply (proj1 (mdns_main_avahi (Scenario.healthy "linux") init
                  eq_refl eq_refl eq_refl eq_refl)
           "=;eth0;IPv4;SmartThings Bridge 1A2B;_hap._tcp;local").
  reflexivity.
Defined.

(** X23.  Once [test_direct_port] has returned [True], the strategy of the
    platform alone decides how [main] of [test-mdns.py] ends: status 0 when it
    returns [True], status 1 when it returns [False], and an exception that
    leaves the strategy leaves [main] too. *)
Theorem mdns_main_exit (env : Env) (s : State) :
  let s1 := emit (Stderr "[INFO] Testing mDNS advertisement for HAP server...")
              (bind_output None (emit (Call "main") s)) in
  let port := MdnsTest.test_direct_port env s1 in
  let strategy := if String.eqb (sys_platform env) "darwin"
                  then MdnsTest.test_mdns_with_dns_sd env
                  else MdnsTest.test_mdns_with_avahi env in
  fst port = Ret true ->
  fst (MdnsTest.main env s)
  = match fst (strategy (snd port)) with
    | Ret true => Raise (SystemExit 0)
    | Ret false => Raise (SystemExit 1)
    | Raise e => Raise e
    end.
Proof.
  intros s1 port strategy E. subst port s1.
  unfold MdnsTest.main, call, bind, print_stderr, do_emit, sys_exit, raise.
  cbv beta iota. fold strategy.
  destruct (MdnsTest.test_direct_port env _) as [r s2]. cbn [fst snd] in *. subst r.
  cbn [negb]. destruct (strategy s2) as [[[|] | e] s3]; reflexivity.
Qed.

Lemma mdns_main_exit_witness :
  fst (MdnsTest.main (Scenario.healthy "darwin") init) = Raise (SystemExit 0).
Proof.
  apply (mdns_main_exit (Scenario.healthy "darwin") init). reflexivity.
Defined.

(** * Runs that instantiate the lemmas on sockets and payloads *)

Lemma web_api_object_payload_witness :
  fst (HapPairing.test_web_api HapPairing.config (Scenario.healthy "darwin") init)
  = Ret true.
Proof.
  apply (web_api_object_payload HapPairing.config (Scenario.healthy "darwin") init
           {| getcode := 200; read_decode := Ok "{...}" |} "{...}"
           [("qrCode", JStr "X"); ("pairingCode", JStr "123-45-678")]);
    reflexivity.
Defined.

Lemma tcp_probe_closes_after_connect_witness :
  open_socks
    (trace (snd (HapPairing.test_hap_tcp_connection HapPairing.config
                   (Scenario.with_interrupt 3 (Scenario.healthy "darwin")) init)))
  = [].
Proof.
  apply tcp_probe_closes_after_connect; [cbn; discriminate | cbn; discriminate | | ];
    reflexivity.
Defined.

Lemma test_direct_port_closes_witness :
  open_socks
    (trace (snd (MdnsTest.test_direct_port
                   (Scenario.with_connect_ex (Ok 111) (Scenario.healthy "linux")) init)))
  = [].
Proof.
  apply (test_direct_port_closes _ 111); [cbn; discriminate | cbn; discriminate | | ];
    reflexivity.
Defined.

Lemma test_port_open_closes_witness :
  open_socks
    (trace (snd (HapPairing.test_port_open
                   (Scenario.with_connect_ex (Ok 111) (Scenario.healthy "darwin"))
                   "localhost" 51826 5 init)))
  = [].
Proof.
  apply (test_port_open_closes _ _ _ _ 111); [cbn; discriminate | cbn; discriminate | | ];
    reflexivity.
Defined.
